(** * un-conditionals: ternary and logical expressions into if/else, early
    returns and switch statements

    A shallow embedding of the transformation [transformAST] of wakaru's
    unminifier (makeDecisionTree, renderDecisionTree,
    renderDecisionTreeWithEarlyReturn, renderDecisionTreeWithSwitch,
    collectSwitchCase, extractComparisonBases, extractComparisonValues,
    countBaseVariableUsedInAllBranches, isComparisonBase, areNodesEqual),
    and the properties its specification states about it. *)

From Stdlib Require Import List String Ascii Bool ZArith Lia.
Import ListNotations.
Local Open Scope string_scope.
Local Open Scope list_scope.
Local Open Scope Z_scope.
Set Warnings "-register-all".

(** ** Syntax trees *)

(** The operators of a [LogicalExpression]. *)
Inductive LogicalOperator : Type :=
| AND      (* && *)
| OR       (* || *)
| NULLISH. (* ?? *)

(** The expression nodes the transformation looks at.  Binary and unary
    operators are kept as the strings the code compares them with.  A node of
    another kind is [OtherExpression] when no expression sits below it (this,
    a template without holes) and [CompoundExpression] with the expressions
    below it otherwise (an array, an object, a member access, a sequence). *)
Inductive Expression : Type :=
| ConditionalExpression (test consequent alternate : Expression)
| LogicalExpression (operator : LogicalOperator) (left right : Expression)
| BinaryExpression (operator : string) (left right : Expression)
| UnaryExpression (operator : string) (argument : Expression)
| Identifier (name : string)
| Literal (raw : string)
| CallExpression (callee : Expression) (arguments : list Expression)
| OtherExpression (source : string)
| CompoundExpression (type : string) (children : list Expression).

(** The statement nodes the renderers build. *)
Inductive Statement : Type :=
| IfStatement (test : Expression) (consequent : Statement)
              (alternate : option Statement)
| BlockStatement (body : list Statement)
| SwitchStatement (discriminant : Expression) (cases : list SwitchCase)
| ReturnStatement (argument : option Expression)
| ExpressionStatement (expression : Expression)
| BreakStatement
with SwitchCase : Type :=
| switchCase (test : option Expression) (consequent : list Statement).

(** interface DecisionTree { condition; trueBranch; falseBranch } *)
Inductive DecisionTree : Type :=
| Tree (condition : Expression)
       (trueBranch falseBranch : option DecisionTree).

Definition condition (tree : DecisionTree) : Expression :=
  match tree with Tree c _ _ => c end.

Definition trueBranch (tree : DecisionTree) : option DecisionTree :=
  match tree with Tree _ t _ => t end.

Definition falseBranch (tree : DecisionTree) : option DecisionTree :=
  match tree with Tree _ _ f => f end.

(** A node without branches: its condition is the action to run. *)
Definition leaf (action : Expression) : DecisionTree := Tree action None None.

(** [falseBranch.trueBranch || falseBranch.falseBranch], and the negation of
    [!trueBranch && !falseBranch]. *)
Definition hasBranch (tree : DecisionTree) : bool :=
  match tree with
  | Tree _ None None => false
  | _ => true
  end.

(** j.X.check(node) for the node types the code asks about. *)
Definition isConditionalExpression (node : Expression) : bool :=
  match node with ConditionalExpression _ _ _ => true | _ => false end.

Definition isLogicalExpression (node : Expression) : bool :=
  match node with LogicalExpression _ _ _ => true | _ => false end.

Definition isLiteral (node : Expression) : bool :=
  match node with Literal _ => true | _ => false end.

Definition isCallExpression (node : Expression) : bool :=
  match node with CallExpression _ _ => true | _ => false end.

Definition isIfStatement (s : Statement) : bool :=
  match s with IfStatement _ _ _ => true | _ => false end.

Definition isSwitchStatement (s : Statement) : bool :=
  match s with SwitchStatement _ _ => true | _ => false end.

Definition isExpressionStatement (s : Statement) : bool :=
  match s with ExpressionStatement _ => true | _ => false end.

(** ** A printer for concrete runs

    Modelled from the spec: the canonical rendered source text of an
    expression (section 4.2), which the code gets from the printer of its
    parsing library.  Every operand is parenthesised, so that two expressions
    print alike only when they are the same tree. *)
Fixpoint printExpression (node : Expression) : string :=
  match node with
  | ConditionalExpression t c a =>
      "(" ++ printExpression t ++ " ? " ++ printExpression c ++ " : "
          ++ printExpression a ++ ")"
  | LogicalExpression op l r =>
      "(" ++ printExpression l
          ++ match op with AND => " && " | OR => " || " | NULLISH => " ?? " end
          ++ printExpression r ++ ")"
  | BinaryExpression op l r =>
      "(" ++ printExpression l ++ " " ++ op ++ " " ++ printExpression r ++ ")"
  | UnaryExpression op a => "(" ++ op ++ printExpression a ++ ")"
  | Identifier name => name
  | Literal raw => raw
  | CallExpression callee args =>
      printExpression callee ++ "("
        ++ String.concat ", " (map printExpression args) ++ ")"
  | OtherExpression source => source
  | CompoundExpression type children =>
      type ++ "[" ++ String.concat ", " (map printExpression children) ++ "]"
  end.

(** ** Sample expressions *)

Definition call (name : string) : Expression :=
  CallExpression (Identifier name) [].

Definition looseEq (lhs rhs : Expression) : Expression :=
  BinaryExpression "==" lhs rhs.

Definition ternary (test consequent alternate : Expression) : Expression :=
  ConditionalExpression test consequent alternate.

(** a==1?f():a==2?g():a==3?h():k() *)
Definition switchChain : Expression :=
  ternary (looseEq (Identifier "a") (Literal "1")) (call "f")
    (ternary (looseEq (Identifier "a") (Literal "2")) (call "g")
       (ternary (looseEq (Identifier "a") (Literal "3")) (call "h")
          (call "k"))).

(** a==1?f():a==2?g():h() *)
Definition shortChain : Expression :=
  ternary (looseEq (Identifier "a") (Literal "1")) (call "f")
    (ternary (looseEq (Identifier "a") (Literal "2")) (call "g") (call "h")).

(** a=='x'||a=='y' *)
Definition eitherXY : Expression :=
  LogicalExpression OR (looseEq (Identifier "a") (Literal "'x'"))
                       (looseEq (Identifier "a") (Literal "'y'")).

(** a=='x'||a=='y'?f():g() *)
Definition fallthroughPair : Expression :=
  ternary eitherXY (call "f") (call "g").

(** a==1?p():a==2?q():a=='x'||a=='y'?f():g() *)
Definition fallthroughChain : Expression :=
  ternary (looseEq (Identifier "a") (Literal "1")) (call "p")
    (ternary (looseEq (Identifier "a") (Literal "2")) (call "q")
       fallthroughPair).

(** a ? f() : b ? g() : h() *)
Definition elseIfChain : Expression :=
  ternary (Identifier "a") (call "f")
    (ternary (Identifier "b") (call "g") (call "h")).

(** a ?? f() *)
Definition nullishGuard : Expression :=
  LogicalExpression NULLISH (Identifier "a") (call "f").

(** a == b || b == a *)
Definition mirroredPair : Expression :=
  LogicalExpression OR (looseEq (Identifier "a") (Identifier "b"))
                       (looseEq (Identifier "b") (Identifier "a")).

(** a==1 ? ((p ? q : r) ? x() : y()) : a==2 ? g() : a==3 ? h() : k() *)
Definition truncatedArm : Expression :=
  ternary (looseEq (Identifier "a") (Literal "1"))
    (ternary (ternary (Identifier "p") (Identifier "q") (Identifier "r"))
       (call "x") (call "y"))
    (ternary (looseEq (Identifier "a") (Literal "2")) (call "g")
       (ternary (looseEq (Identifier "a") (Literal "3")) (call "h")
          (call "k"))).

(** a ? (b && c()) : e ? d() : g() *)
Definition guardedArm : Expression :=
  ternary (Identifier "a")
    (LogicalExpression AND (Identifier "b") (call "c"))
    (ternary (Identifier "e") (call "d") (call "g")).

(** a==1 || (a==2 ? f() : a==3 ? g() : a==4 ? h() : k()) *)
Definition orLadder : Expression :=
  LogicalExpression OR (looseEq (Identifier "a") (Literal "1"))
    (ternary (looseEq (Identifier "a") (Literal "2")) (call "f")
       (ternary (looseEq (Identifier "a") (Literal "3")) (call "g")
          (ternary (looseEq (Identifier "a") (Literal "4")) (call "h")
             (call "k")))).

(** -f() *)
Definition negatedCall : Expression := UnaryExpression "-" (call "f").

(** -f()==1?p():-f()==2?q():-f()==3?r():s() *)
Definition negatedCallChain : Expression :=
  ternary (looseEq negatedCall (Literal "1")) (call "p")
    (ternary (looseEq negatedCall (Literal "2")) (call "q")
       (ternary (looseEq negatedCall (Literal "3")) (call "r") (call "s"))).

(** a ?? (b ?? (c ?? f())) *)
Definition nullishChain : Expression :=
  LogicalExpression NULLISH (Identifier "a")
    (LogicalExpression NULLISH (Identifier "b")
       (LogicalExpression NULLISH (Identifier "c") (call "f"))).

(** a ? [b ? 1 : 2] : g() *)
Definition arrayArm : Expression :=
  ternary (Identifier "a")
    (CompoundExpression "ArrayExpression"
       [ternary (Identifier "b") (Literal "1") (Literal "2")])
    (call "g").

(** A run in which the variable [name] holds the value written [value]: a
    case test matches when it is written [value], an equality comparison
    with [name] on one side holds when the other side is written [value],
    and every other test fails. *)
Definition sampleMatches (value : string) (_ test : Expression) : bool :=
  String.eqb (printExpression test) value.

Definition sampleTruth (name value : string) (test : Expression) : bool :=
  match test with
  | BinaryExpression _ lhs rhs =>
      if String.eqb (printExpression lhs) name
      then String.eqb (printExpression rhs) value
      else if String.eqb (printExpression rhs) name
           then String.eqb (printExpression lhs) value
           else false
  | _ => false
  end.

(** ** The decision tree builder *)

(** function makeDecisionTree(j, node) *)
Fixpoint makeDecisionTree (node : Expression) : DecisionTree :=
  match node with
  | ConditionalExpression test consequent alternate =>
      Tree test
           (Some (makeDecisionTree consequent))
           (Some (makeDecisionTree alternate))
  | LogicalExpression AND lhs rhs =>
      Tree lhs (Some (makeDecisionTree rhs)) None
  | LogicalExpression OR lhs rhs =>
      Tree lhs None (Some (makeDecisionTree rhs))
  | LogicalExpression NULLISH lhs rhs =>
      Tree (BinaryExpression "==" lhs (Identifier "null"))
           (Some (makeDecisionTree rhs))
           None
  | _ => Tree node None None
  end.

(** ** The early-return renderer *)

(** function renderDecisionTreeWithEarlyReturn(j, tree).  The condition of a
    tree is a node object, hence truthy, so a leaf always gives a return. *)
Fixpoint renderDecisionTreeWithEarlyReturn (tree : DecisionTree)
  : list Statement :=
  match tree with
  | Tree condition (Some trueBranch) (Some falseBranch) =>
      let trueBranchStatements :=
        renderDecisionTreeWithEarlyReturn trueBranch in
      let falseBranchStatements :=
        renderDecisionTreeWithEarlyReturn falseBranch in
      IfStatement condition (BlockStatement trueBranchStatements) None
        :: falseBranchStatements
  | Tree condition (Some trueBranch) None =>
      [IfStatement condition
         (BlockStatement (renderDecisionTreeWithEarlyReturn trueBranch))
         None]
  | Tree condition None (Some falseBranch) =>
      [IfStatement (UnaryExpression "!" condition)
         (BlockStatement (renderDecisionTreeWithEarlyReturn falseBranch))
         None]
  | Tree condition None None => [ReturnStatement (Some condition)]
  end.

(** ** Switch synthesis and the if/else renderer *)

(** function isComparisonBase(j, node) *)
Definition isComparisonBase (node : Expression) : bool :=
  if isLiteral node then false
  else if isCallExpression node then false
  else true.

(** condition.operator === '==' || condition.operator === '===' *)
Definition isEqualityOperator (operator : string) : bool :=
  String.eqb operator "==" || String.eqb operator "===".

Definition SWITCH_THRESHOLD : Z := 3.

(** The expressions that make an expression statement a target of the
    transformation. *)
Definition isTriggerExpression (node : Expression) : bool :=
  isConditionalExpression node || isLogicalExpression node.

(** Every leaf of the tree holds an expression that is no target. *)
Fixpoint leavesPlain (tree : DecisionTree) : bool :=
  match tree with
  | Tree c None None => negb (isTriggerExpression c)
  | Tree _ t f =>
      match t with Some t' => leavesPlain t' | None => true end
      && match f with Some f' => leavesPlain f' | None => true end
  end.

(** Every expression of the tree that can land in statement position, a leaf
    or the condition of a true branch, is no target. *)
Fixpoint plainActions (tree : DecisionTree) : bool :=
  match tree with
  | Tree c None None => negb (isTriggerExpression c)
  | Tree _ t f =>
      match t with
      | Some t' => negb (isTriggerExpression (condition t')) && plainActions t'
      | None => true
      end
      && match f with Some f' => plainActions f' | None => true end
  end.

Definition consequentOf (c : SwitchCase) : list Statement :=
  match c with switchCase _ consequent => consequent end.

(** An equality comparison, and an OR of two expressions. *)
Definition isEqualityComparison (node : Expression) : bool :=
  match node with
  | BinaryExpression operator _ _ => isEqualityOperator operator
  | _ => false
  end.

Definition isOrExpression (node : Expression) : bool :=
  match node with
  | LogicalExpression OR _ _ => true
  | _ => false
  end.

(** ** Positions (un-indirect-call) *)

(** What getNodePosition gives for a node that has a position. *)
Record Position : Type := mkPosition { startOf : Z; endOf : Z }.

(** function isPositionBetween(node, before, after), on the positions
    getNodePosition gives for the three nodes, None when it gives none. *)
Definition isPositionBetween (posNode posBefore posAfter : option Position)
  : bool :=
  match posNode, posBefore, posAfter with
  | Some posNode, Some posBefore, Some posAfter =>
      (endOf posBefore <? startOf posNode)
      && (endOf posNode <? startOf posAfter)
  | _, _, _ => true
  end.

Definition wellFormed (position : Position) : Prop :=
  startOf position <= endOf position.

(** The operands of the equality comparisons of a condition, looking through
    OR only. *)
Fixpoint equalityOperands (condition : Expression) : list Expression :=
  match condition with
  | BinaryExpression operator lhs rhs =>
      if isEqualityOperator operator then [lhs; rhs] else []
  | LogicalExpression OR lhs rhs =>
      equalityOperands lhs ++ equalityOperands rhs
  | _ => []
  end.

(** A case with a test, as opposed to the default case. *)
Definition hasTest (c : SwitchCase) : bool :=
  match c with
  | switchCase (Some _) _ => true
  | switchCase None _ => false
  end.

(** A consequent as collectSwitchCase builds them: nothing, or one
    expression statement and a break. *)
Definition isCaseBody (consequent : list Statement) : bool :=
  match consequent with
  | [] => true
  | [ExpressionStatement _; BreakStatement] => true
  | _ => false
  end.

(** ** Measures of trees and statements *)

(** The leaves of a tree, true side first. *)
Fixpoint leaves (tree : DecisionTree) : list Expression :=
  match tree with
  | Tree c None None => [c]
  | Tree _ t f =>
      match t with Some t' => leaves t' | None => [] end
      ++ match f with Some f' => leaves f' | None => [] end
  end.

(** The largest number of internal nodes on a path from the root to a
    leaf. *)
Fixpoint height (tree : DecisionTree) : nat :=
  match tree with
  | Tree _ None None => 0
  | Tree _ t f =>
      S (Nat.max match t with Some t' => height t' | None => 0 end
                 match f with Some f' => height f' | None => 0 end)
  end.

(** Every internal node has both branches: the tree of nested ternaries
    without a logical expression as an arm. *)
Fixpoint bothOrLeaf (tree : DecisionTree) : bool :=
  match tree with
  | Tree _ None None => true
  | Tree _ (Some t) (Some f) => bothOrLeaf t && bothOrLeaf f
  | _ => false
  end.

Definition isBlockStatement (s : Statement) : bool :=
  match s with BlockStatement _ => true | _ => false end.

(** The statements that are no if, block or switch, in source order. *)
Fixpoint simpleStatements (s : Statement) : list Statement :=
  match s with
  | IfStatement _ consequent alternate =>
      simpleStatements consequent
      ++ match alternate with
         | Some alternate => simpleStatements alternate
         | None => []
         end
  | BlockStatement body => flat_map simpleStatements body
  | SwitchStatement _ cases =>
      flat_map (fun c => flat_map simpleStatements (consequentOf c)) cases
  | _ => [s]
  end.

(** No if statement has an else. *)
Fixpoint elseFree (s : Statement) : bool :=
  match s with
  | IfStatement _ consequent alternate =>
      match alternate with Some _ => false | None => true end
      && elseFree consequent
  | BlockStatement body => forallb elseFree body
  | SwitchStatement _ cases =>
      forallb (fun c => forallb elseFree (consequentOf c)) cases
  | _ => true
  end.

(** Every if statement has a block as consequent, and an if or a block as
    alternate when it has one. *)
Fixpoint blockBodied (s : Statement) : bool :=
  match s with
  | IfStatement _ consequent alternate =>
      isBlockStatement consequent && blockBodied consequent
      && match alternate with
         | Some alternate =>
             (isIfStatement alternate || isBlockStatement alternate)
             && blockBodied alternate
         | None => true
         end
  | BlockStatement body => forallb blockBodied body
  | SwitchStatement _ cases =>
      forallb (fun c => forallb blockBodied (consequentOf c)) cases
  | _ => true
  end.

(** ** Running statements

    A reference semantics for the statements the renderers build, to compare
    a rendering with the expression it comes from.  [truth] gives the outcome
    of the tests that are no negation, AND or OR; [matches d v] tells whether
    the value of the discriminant [d] is the value of the case test [v].  An
    outcome is the list of the expression statements run, in order, and the
    way the run ends. *)

Inductive Completion : Type :=
| Completed
| Broke
| Returned (argument : option Expression).

Definition Outcome : Type := (list Expression * Completion)%type.

Definition andThen (first second : Outcome) : Outcome :=
  match snd first with
  | Completed => (fst first ++ fst second, snd second)
  | _ => first
  end.

Section Running.

Variable truth : Expression -> bool.
Variable matches : Expression -> Expression -> bool.

Fixpoint evalTest (test : Expression) : bool :=
  match test with
  | UnaryExpression operator argument =>
      if String.eqb operator "!" then negb (evalTest argument) else truth test
  | LogicalExpression AND lhs rhs => evalTest lhs && evalTest rhs
  | LogicalExpression OR lhs rhs => evalTest lhs || evalTest rhs
  | _ => truth test
  end.

(** The terminal expression a ternary or logical expression ends up
    evaluating, if any: short-circuit evaluation of the operators
    makeDecisionTree takes apart. *)
Fixpoint evalAction (node : Expression) : option Expression :=
  match node with
  | ConditionalExpression test consequent alternate =>
      if evalTest test then evalAction consequent else evalAction alternate
  | LogicalExpression AND lhs rhs =>
      if evalTest lhs then evalAction rhs else None
  | LogicalExpression OR lhs rhs =>
      if evalTest lhs then None else evalAction rhs
  | LogicalExpression NULLISH lhs rhs =>
      if evalTest (BinaryExpression "==" lhs (Identifier "null"))
      then evalAction rhs else None
  | _ => Some node
  end.

(** The leaf a decision tree selects: the true branch when the condition
    holds, the false branch when it does not, nothing when that branch is
    missing. *)
Fixpoint selectLeaf (tree : DecisionTree) : option Expression :=
  match tree with
  | Tree c None None => Some c
  | Tree c t f =>
      if evalTest c
      then match t with Some t' => selectLeaf t' | None => None end
      else match f with Some f' => selectLeaf f' | None => None end
  end.

(** The selected leaf as the list of the expression statements to run. *)
Definition selected (tree : DecisionTree) : list Expression :=
  match selectLeaf tree with
  | Some action => [action]
  | None => []
  end.

Definition execSequence (exec : Statement -> Outcome)
  : list Statement -> Outcome :=
  fix go (body : list Statement) : Outcome :=
    match body with
    | [] => ([], Completed)
    | s :: rest => andThen (exec s) (go rest)
    end.

(** The consequents of the cases run one after the other. *)
Definition execCases (exec : Statement -> Outcome)
  : list SwitchCase -> Outcome :=
  fix go (cases : list SwitchCase) : Outcome :=
    match cases with
    | [] => ([], Completed)
    | switchCase _ consequent :: rest =>
        andThen (execSequence exec consequent) (go rest)
    end.

(** The run from the first case whose test passes [entry]. *)
Definition enterCases (exec : Statement -> Outcome)
  (entry : option Expression -> bool) : list SwitchCase -> option Outcome :=
  fix go (cases : list SwitchCase) : option Outcome :=
    match cases with
    | [] => None
    | switchCase test _ :: rest =>
        if entry test then Some (execCases exec cases) else go rest
    end.

Definition caseMatches (discriminant : Expression)
  (test : option Expression) : bool :=
  match test with
  | Some value => matches discriminant value
  | None => false
  end.

Definition isDefaultCase (test : option Expression) : bool :=
  match test with Some _ => false | None => true end.

(** How a switch ends, from the run it entered: a break ends the switch and
    nothing more. *)
Definition endSwitch (entered : option Outcome) : Outcome :=
  match entered with
  | Some (actions, Broke) => (actions, Completed)
  | Some outcome => outcome
  | None => ([], Completed)
  end.

(** A switch enters at the first case that matches, or else at the default
    case, runs on through the following cases, and ends at a break. *)
Fixpoint execStatement (s : Statement) : Outcome :=
  match s with
  | IfStatement test consequent alternate =>
      if evalTest test then execStatement consequent
      else match alternate with
           | Some alternate => execStatement alternate
           | None => ([], Completed)
           end
  | BlockStatement body => execSequence execStatement body
  | SwitchStatement discriminant cases =>
      let entered :=
        match enterCases execStatement (caseMatches discriminant) cases with
        | Some outcome => Some outcome
        | None => enterCases execStatement isDefaultCase cases
        end in
      endSwitch entered
  | ReturnStatement argument => ([], Returned argument)
  | ExpressionStatement expression => ([expression], Completed)
  | BreakStatement => ([], Broke)
  end.

Definition execStatements (body : list Statement) : Outcome :=
  execSequence execStatement body.

(** The cases that let a match fall through to the next consequent. *)
Definition fallthroughLabels (values : list Expression) : list SwitchCase :=
  map (fun comparisonValue => switchCase (Some comparisonValue) []) values.

End Running.

Section Rendering.

(** The printer [j(node).toSource()] belongs to the parsing library; the
    transformation is modelled over any printer. *)
Variable toSource : Expression -> string.

(** function areNodesEqual(j, node1, node2) *)
Definition areNodesEqual (node1 node2 : Expression) : bool :=
  String.eqb (toSource node1) (toSource node2).

(** function extractComparisonBases(j, condition) *)
Fixpoint extractComparisonBases (condition : Expression) : list Expression :=
  match condition with
  | BinaryExpression operator lhs rhs =>
      if isEqualityOperator operator
      then filter isComparisonBase [lhs; rhs]
      else []
  | LogicalExpression OR lhs rhs =>
      let leftBases := extractComparisonBases lhs in
      let rightBases := extractComparisonBases rhs in
      if (0 <? Z.of_nat (List.length leftBases))
         && (0 <? Z.of_nat (List.length rightBases))
      then
        match find (fun node1 =>
                      match find (fun node2 => areNodesEqual node1 node2)
                                 rightBases with
                      | Some _ => true
                      | None => false
                      end) leftBases with
        | Some baseVariable => [baseVariable]
        | None => []
        end
      else []
  | _ => []
  end.

(** function extractComparisonValues(j, node, base) *)
Fixpoint extractComparisonValues (node base : Expression) : list Expression :=
  match node with
  | BinaryExpression operator lhs rhs =>
      if isEqualityOperator operator
      then
        if areNodesEqual lhs base then [rhs]
        else if areNodesEqual rhs base then [lhs]
        else []
      else []
  | LogicalExpression OR lhs rhs =>
      let leftValues := extractComparisonValues lhs base in
      let rightValues := extractComparisonValues rhs base in
      leftValues ++ rightValues
  | _ => []
  end.

(** comparisonBases.some(node => areNodesEqual(j, node, base)) *)
Definition testsBase (base condition : Expression) : bool :=
  existsb (fun node => areNodesEqual node base)
          (extractComparisonBases condition).

(** function countBaseVariableUsedInAllBranches(j, base, tree, count = 0) *)
Fixpoint countBaseVariableUsedInAllBranches
  (base : Expression) (tree : DecisionTree) (count : Z) : Z :=
  match tree with
  | Tree condition None None => count
  | Tree condition trueBranch falseBranch =>
      if negb (testsBase base condition) then -1
      else
        match trueBranch, falseBranch with
        | Some trueBranch, Some falseBranch =>
            Z.max
              (countBaseVariableUsedInAllBranches base trueBranch (count + 1))
              (countBaseVariableUsedInAllBranches base falseBranch (count + 1))
        | Some trueBranch, None =>
            countBaseVariableUsedInAllBranches base trueBranch (count + 1)
        | None, Some falseBranch =>
            countBaseVariableUsedInAllBranches base falseBranch (count + 1)
        | None, None => count
        end
  end.

(** const [lastComparisonValue, ...otherComparisonValues] =
      comparisonValues.reverse(); otherComparisonValues.reverse() *)
Definition splitLast (comparisonValues : list Expression)
  : option Expression * list Expression :=
  match rev comparisonValues with
  | [] => (None, [])
  | lastComparisonValue :: otherComparisonValues =>
      (Some lastComparisonValue, rev otherComparisonValues)
  end.

(** function collectSwitchCase(j, tree, base) *)
Fixpoint collectSwitchCase (tree : DecisionTree) (base : Expression)
  : list SwitchCase :=
  match tree with
  | Tree cond None None => []
  | Tree cond trueBranch falseBranch =>
      let comparisonValues := extractComparisonValues cond base in
      let (lastComparisonValue, otherComparisonValues) :=
        splitLast comparisonValues in
      map (fun comparisonValue => switchCase (Some comparisonValue) [])
          otherComparisonValues
      ++ match lastComparisonValue with
         | Some lastComparisonValue =>
             match trueBranch with
             | Some trueBranch =>
                 [switchCase (Some lastComparisonValue)
                    [ExpressionStatement (condition trueBranch);
                     BreakStatement]]
             | None => [switchCase (Some lastComparisonValue) []]
             end
         | None => []
         end
      ++ match falseBranch with
         | Some falseBranch =>
             if hasBranch falseBranch
             then collectSwitchCase falseBranch base
             else [switchCase None
                     [ExpressionStatement (condition falseBranch);
                      BreakStatement]]
         | None => []
         end
  end.

(** function renderDecisionTreeWithSwitch(j, tree) *)
Definition renderDecisionTreeWithSwitch (tree : DecisionTree)
  : option Statement :=
  let cond := condition tree in
  let comparisonBases := extractComparisonBases cond in
  if (Z.of_nat (List.length comparisonBases) =? 0) then None
  else
    match find (fun base =>
                  SWITCH_THRESHOLD
                    <=? countBaseVariableUsedInAllBranches base tree 0)
               comparisonBases with
    | None => None
    | Some comparisonBase =>
        let switchCases := collectSwitchCase tree comparisonBase in
        Some (SwitchStatement comparisonBase switchCases)
    end.

(** falseBranchStatements.length === 1
      && j.IfStatement.check(falseBranchStatements[0]) *)
Definition isSingleIfStatement (statements : list Statement) : bool :=
  match statements with
  | [statement] => isIfStatement statement
  | _ => false
  end.

(** The else clause of a node with both branches, from the rendering of its
    false side. *)
Definition elseClause (falseBranchStatements : list Statement) : Statement :=
  match falseBranchStatements with
  | [statement] =>
      if isIfStatement statement then statement
      else BlockStatement falseBranchStatements
  | _ => BlockStatement falseBranchStatements
  end.

(** function renderDecisionTree(j, tree) *)
Fixpoint renderDecisionTree (tree : DecisionTree) : list Statement :=
  match renderDecisionTreeWithSwitch tree with
  | Some switchStatement => [switchStatement]
  | None =>
      match tree with
      | Tree condition (Some trueBranch) (Some falseBranch) =>
          let falseBranchStatements := renderDecisionTree falseBranch in
          if isSingleIfStatement falseBranchStatements
          then
            [IfStatement condition
               (BlockStatement (renderDecisionTree trueBranch))
               (nth_error falseBranchStatements 0)]
          else
            [IfStatement condition
               (BlockStatement (renderDecisionTree trueBranch))
               (Some (BlockStatement falseBranchStatements))]
      | Tree condition (Some trueBranch) None =>
          [IfStatement condition
             (BlockStatement (renderDecisionTree trueBranch))
             None]
      | Tree condition None (Some falseBranch) =>
          [IfStatement (UnaryExpression "!" condition)
             (BlockStatement (renderDecisionTree falseBranch))
             None]
      | Tree condition None None => [ExpressionStatement condition]
      end
  end.

(** ** The three passes of transformAST *)

(** j(node).find(j.ConditionalExpression).size() > 0, or the node is a
    conditional expression itself. *)
Fixpoint hasConditionalExpression (node : Expression) : bool :=
  match node with
  | ConditionalExpression _ _ _ => true
  | LogicalExpression _ lhs rhs =>
      hasConditionalExpression lhs || hasConditionalExpression rhs
  | BinaryExpression _ lhs rhs =>
      hasConditionalExpression lhs || hasConditionalExpression rhs
  | UnaryExpression _ argument => hasConditionalExpression argument
  | CallExpression callee arguments =>
      hasConditionalExpression callee
      || existsb hasConditionalExpression arguments
  | CompoundExpression _ children => existsb hasConditionalExpression children
  | _ => false
  end.

(** The filter on the argument of a return statement: a ternary with a
    ternary somewhere in its consequent or alternate. *)
Definition isNestedConditional (node : Expression) : bool :=
  match node with
  | ConditionalExpression _ consequent alternate =>
      hasConditionalExpression consequent
      || hasConditionalExpression alternate
  | _ => false
  end.

(** ** Targets of the transformation *)

(** The statements transformAST looks for. *)
Definition isTarget (s : Statement) : bool :=
  match s with
  | ExpressionStatement expression => isTriggerExpression expression
  | ReturnStatement (Some argument) => isNestedConditional argument
  | _ => false
  end.

Fixpoint containsTarget (s : Statement) : bool :=
  isTarget s
  || match s with
     | IfStatement _ consequent alternate =>
         containsTarget consequent
         || match alternate with
            | Some alternate => containsTarget alternate
            | None => false
            end
     | BlockStatement body => existsb containsTarget body
     | SwitchStatement _ cases =>
         existsb (fun c => existsb containsTarget (consequentOf c)) cases
     | _ => false
     end.

(** The statements each pass looks for, and what it replaces them with. *)
Definition rewriteConditionalStatement (s : Statement)
  : option (list Statement) :=
  match s with
  | ExpressionStatement (ConditionalExpression _ _ _ as conditionExpression) =>
      Some (renderDecisionTree (makeDecisionTree conditionExpression))
  | _ => None
  end.

Definition rewriteReturnStatement (s : Statement) : option (list Statement) :=
  match s with
  | ReturnStatement (Some conditionExpression) =>
      if isNestedConditional conditionExpression
      then Some (renderDecisionTreeWithEarlyReturn
                   (makeDecisionTree conditionExpression))
      else None
  | _ => None
  end.

Definition rewriteLogicalStatement (s : Statement) : option (list Statement) :=
  match s with
  | ExpressionStatement (LogicalExpression _ _ _ as logicalExpression) =>
      Some (renderDecisionTree (makeDecisionTree logicalExpression))
  | _ => None
  end.

(** A pass is asked of some statement whether it contains a statement the
    pass would replace. *)
Section Pass.

Variable rewrite : Statement -> option (list Statement).

(** Modelled from the spec: the statement-splicing utility
    transformToMultiStatementContext (section 6), which puts the replacements
    in place of the one statement found: spliced into the list where the
    statement sat in a block or a switch case, wrapped in a block where it was
    the sole body or alternate of an if statement. *)
Fixpoint visitStatement (s : Statement) : Statement :=
  match s with
  | IfStatement test consequent alternate =>
      let inSingle x :=
        match rewrite x with
        | Some replacements => BlockStatement replacements
        | None => visitStatement x
        end in
      IfStatement test (inSingle consequent) (option_map inSingle alternate)
  | BlockStatement body =>
      BlockStatement
        (flat_map (fun x => match rewrite x with
                            | Some replacements => replacements
                            | None => [visitStatement x]
                            end) body)
  | SwitchStatement discriminant cases =>
      SwitchStatement discriminant
        (map (fun c =>
                match c with
                | switchCase test consequent =>
                    switchCase test
                      (flat_map (fun x => match rewrite x with
                                          | Some replacements => replacements
                                          | None => [visitStatement x]
                                          end) consequent)
                end) cases)
  | _ => s
  end.

Definition visitProgram (body : list Statement) : list Statement :=
  flat_map (fun x => match rewrite x with
                     | Some replacements => replacements
                     | None => [visitStatement x]
                     end) body.

End Pass.

(** A statement a pass leaves as it is. *)
Definition fixedBy (rewrite : Statement -> option (list Statement))
  (s : Statement) : Prop :=
  rewrite s = None /\ visitStatement rewrite s = s.

(** export const transformAST: the ternary statements, then the returns of a
    nested ternary, then the logical statements. *)
Definition transformAST (body : list Statement) : list Statement :=
  visitProgram rewriteLogicalStatement
    (visitProgram rewriteReturnStatement
       (visitProgram rewriteConditionalStatement body)).

(** [node] is among [bases], by areNodesEqual. *)
Definition presentIn (node : Expression) (bases : list Expression) : bool :=
  existsb (fun node2 => areNodesEqual node node2) bases.

(** leftBases.find(node1 => rightBases.find(node2 => areNodesEqual(...))) *)
Definition firstCommonBase (leftBases rightBases : list Expression)
  : option Expression :=
  find (fun node1 => presentIn node1 rightBases) leftBases.

(** ** The threshold, in the words of the specification *)

(** A valid chain for [base]: a path from the root of the tree down to a leaf
    on which every internal node tests [base]; its length is the number of
    internal nodes on it. *)
Inductive validChain (base : Expression) : DecisionTree -> nat -> Prop :=
| chainLeaf : forall action, validChain base (Tree action None None) 0
| chainTrue : forall cond t f n,
    testsBase base cond = true ->
    validChain base t n ->
    validChain base (Tree cond (Some t) f) (S n)
| chainFalse : forall cond t f n,
    testsBase base cond = true ->
    validChain base f n ->
    validChain base (Tree cond t (Some f)) (S n).

(** The deepest valid chain for [base] reaches at least three internal
    nodes. *)
Definition reachesThreshold (base : Expression) (tree : DecisionTree) : Prop :=
  exists n, (3 <= n)%nat /\ validChain base tree n.

(** The base [renderDecisionTreeWithSwitch] looks for. *)
Definition qualifies (tree : DecisionTree) (base : Expression) : bool :=
  SWITCH_THRESHOLD <=? countBaseVariableUsedInAllBranches base tree 0.

(** What the false branch adds to the cases of a switch. *)
Definition falseBranchCases (falseBranch : option DecisionTree)
  (base : Expression) : list SwitchCase :=
  match falseBranch with
  | Some falseBranch =>
      if hasBranch falseBranch
      then collectSwitchCase falseBranch base
      else [switchCase None
              [ExpressionStatement (condition falseBranch); BreakStatement]]
  | None => []
  end.

(** No switch is synthesized at any node the if/else renderer visits. *)
Fixpoint switchFree (tree : DecisionTree) : bool :=
  match renderDecisionTreeWithSwitch tree with
  | Some _ => false
  | None =>
      match tree with
      | Tree _ t f =>
          match t with Some t' => switchFree t' | None => true end
          && match f with Some f' => switchFree f' | None => true end
      end
  end.

(** The condition is an equality comparison with [base] on one side, or an
    OR of such conditions. *)
Fixpoint comparesOnly (base condition : Expression) : bool :=
  match condition with
  | BinaryExpression operator lhs rhs =>
      isEqualityOperator operator
      && (areNodesEqual lhs base || areNodesEqual rhs base)
  | LogicalExpression OR lhs rhs =>
      comparesOnly base lhs && comparesOnly base rhs
  | _ => false
  end.

(** The shape of the examples in the documentation of transformAST: down the
    false branches every condition compares [base] with values and every
    true branch is a leaf; the last false branch is a leaf or is missing. *)
Fixpoint caseLadder (base : Expression) (tree : DecisionTree) : bool :=
  match tree with
  | Tree c (Some t) f =>
      comparesOnly base c && negb (hasBranch t)
      && match f with
         | Some f' => if hasBranch f' then caseLadder base f' else true
         | None => true
         end
  | _ => false
  end.

(** ** Lemmas on trees *)

Lemma DecisionTree_shape_ind (P : DecisionTree -> Prop) :
  (forall c, P (Tree c None None)) ->
  (forall c t, P t -> P (Tree c (Some t) None)) ->
  (forall c f, P f -> P (Tree c None (Some f))) ->
  (forall c t f, P t -> P f -> P (Tree c (Some t) (Some f))) ->
  forall tree, P tree.
Proof.
  intros Hleaf Htrue Hfalse Hboth.
  fix IH 1.
  intros [c [t|] [f|]].
  - apply Hboth; apply IH.
  - apply Htrue; apply IH.
  - apply Hfalse; apply IH.
  - apply Hleaf.
Qed.

Lemma count_unfold base c t f k :
  hasBranch (Tree c t f) = true ->
  countBaseVariableUsedInAllBranches base (Tree c t f) k =
  if negb (testsBase base c) then -1
  else match t, f with
       | Some t', Some f' =>
           Z.max (countBaseVariableUsedInAllBranches base t' (k + 1))
                 (countBaseVariableUsedInAllBranches base f' (k + 1))
       | Some t', None => countBaseVariableUsedInAllBranches base t' (k + 1)
       | None, Some f' => countBaseVariableUsedInAllBranches base f' (k + 1)
       | None, None => k
       end.
Proof.
  destruct t, f; simpl; intros H; try reflexivity; discriminate.
Qed.

Lemma validChain_untested base c t f n :
  hasBranch (Tree c t f) = true ->
  testsBase base c = false ->
  ~ validChain base (Tree c t f) n.
Proof.
  intros Hb Ht H. inversion H; subst; try congruence.
  discriminate Hb.
Qed.

(** The count is the sentinel when no chain is valid, and otherwise the
    starting count plus the length of the deepest valid chain. *)
Lemma count_deepest_chain base :
  forall tree k,
    0 <= k ->
    (countBaseVariableUsedInAllBranches base tree k = -1
     /\ forall n, ~ validChain base tree n)
    \/ (exists n,
          validChain base tree n
          /\ countBaseVariableUsedInAllBranches base tree k = k + Z.of_nat n
          /\ forall m, validChain base tree m -> (m <= n)%nat).
Proof.
  induction tree as [c | c t IHt | c f IHf | c t f IHt IHf]
    using DecisionTree_shape_ind; intros k Hk.
  - right. exists 0%nat. split; [constructor|]. split; [simpl; lia|].
    intros m H. inversion H; subst. lia.
  - rewrite count_unfold by reflexivity.
    destruct (testsBase base c) eqn:E; simpl.
    + destruct (IHt (k + 1)) as [[Hc Hn] | [n [Hv [Hc Hm]]]]; [lia | |].
      * left. split; [exact Hc|]. intros n H. inversion H; subst.
        eapply Hn; eassumption.
      * right. exists (S n). split; [constructor; assumption|].
        split; [lia|]. intros m H. inversion H; subst.
        apply le_n_S. apply Hm. assumption.
    + left. split; [reflexivity|]. intros n.
      apply validChain_untested; [reflexivity | assumption].
  - rewrite count_unfold by reflexivity.
    destruct (testsBase base c) eqn:E; simpl.
    + destruct (IHf (k + 1)) as [[Hc Hn] | [n [Hv [Hc Hm]]]]; [lia | |].
      * left. split; [exact Hc|]. intros n H. inversion H; subst.
        eapply Hn; eassumption.
      * right. exists (S n). split; [constructor; assumption|].
        split; [lia|]. intros m H. inversion H; subst.
        apply le_n_S. apply Hm. assumption.
    + left. split; [reflexivity|]. intros n.
      apply validChain_untested; [reflexivity | assumption].
  - rewrite count_unfold by reflexivity.
    destruct (testsBase base c) eqn:E; simpl.
    + destruct (IHt (k + 1)) as [[Hct Hnt] | [nt [Hvt [Hct Hmt]]]]; [lia | |];
        (destruct (IHf (k + 1)) as [[Hcf Hnf] | [nf [Hvf [Hcf Hmf]]]];
         [lia | |]); rewrite Hct, Hcf.
      * left. split; [reflexivity|]. intros n H. inversion H; subst.
        -- eapply Hnt; eassumption.
        -- eapply Hnf; eassumption.
      * right. exists (S nf). split; [apply chainFalse; assumption|].
        split; [lia|]. intros m H. inversion H; subst.
        -- exfalso. eapply Hnt; eassumption.
        -- apply le_n_S. apply Hmf. assumption.
      * right. exists (S nt). split; [apply chainTrue; assumption|].
        split; [lia|]. intros m H. inversion H; subst.
        -- apply le_n_S. apply Hmt. assumption.
        -- exfalso. eapply Hnf; eassumption.
      * right. exists (S (Nat.max nt nf)). split.
        -- destruct (Nat.max_spec nt nf) as [[_ ->] | [_ ->]].
           ++ apply chainFalse; assumption.
           ++ apply chainTrue; assumption.
        -- split; [lia|]. intros m H. inversion H; subst.
           ++ apply le_n_S. specialize (Hmt _ H5). lia.
           ++ apply le_n_S. specialize (Hmf _ H5). lia.
    + left. split; [reflexivity|]. intros n.
      apply validChain_untested; [reflexivity | assumption].
Qed.

(** A base qualifies exactly when its deepest valid chain reaches the
    threshold. *)
Lemma qualifies_iff base tree :
  qualifies tree base = true <-> reachesThreshold base tree.
Proof.
  unfold qualifies, reachesThreshold, SWITCH_THRESHOLD.
  rewrite Z.leb_le.
  destruct (count_deepest_chain base tree 0) as [[Hc Hn] | [n [Hv [Hc Hm]]]];
    [lia | |].
  - split.
    + intros H. lia.
    + intros [n [_ H]]. exfalso. eapply Hn; eassumption.
  - rewrite Hc. split.
    + intros H. exists n. split; [lia | assumption].
    + intros [m [H3 H]]. specialize (Hm _ H). lia.
Qed.

(** The early exit on an empty list of bases changes nothing: the switch is
    built on the first base that qualifies. *)
Lemma renderDecisionTreeWithSwitch_find tree :
  renderDecisionTreeWithSwitch tree =
  match find (qualifies tree) (extractComparisonBases (condition tree)) with
  | Some base => Some (SwitchStatement base (collectSwitchCase tree base))
  | None => None
  end.
Proof.
  unfold renderDecisionTreeWithSwitch.
  destruct (extractComparisonBases (condition tree)) as [|b bs]; reflexivity.
Qed.

Lemma renderDecisionTreeWithSwitch_Some tree statement :
  renderDecisionTreeWithSwitch tree = Some statement ->
  exists base,
    In base (extractComparisonBases (condition tree))
    /\ qualifies tree base = true
    /\ statement = SwitchStatement base (collectSwitchCase tree base).
Proof.
  rewrite renderDecisionTreeWithSwitch_find.
  destruct (find _ _) as [base|] eqn:E; [|discriminate].
  intros H. injection H as <-. apply find_some in E. destruct E.
  exists base. auto.
Qed.

Lemma renderDecisionTreeWithSwitch_None tree :
  renderDecisionTreeWithSwitch tree = None <->
  forall base,
    In base (extractComparisonBases (condition tree)) ->
    qualifies tree base = false.
Proof.
  rewrite renderDecisionTreeWithSwitch_find.
  destruct (find _ _) as [base|] eqn:E.
  - split; [discriminate|]. intros H. apply find_some in E.
    destruct E as [Hin Hq]. rewrite (H _ Hin) in Hq. discriminate.
  - split; [|reflexivity]. intros _ base Hin.
    exact (find_none _ _ E base Hin).
Qed.

Lemma renderDecisionTree_unfold tree :
  renderDecisionTree tree =
  match renderDecisionTreeWithSwitch tree with
  | Some switchStatement => [switchStatement]
  | None =>
      match tree with
      | Tree c (Some t) (Some f) =>
          if isSingleIfStatement (renderDecisionTree f)
          then [IfStatement c (BlockStatement (renderDecisionTree t))
                  (nth_error (renderDecisionTree f) 0)]
          else [IfStatement c (BlockStatement (renderDecisionTree t))
                  (Some (BlockStatement (renderDecisionTree f)))]
      | Tree c (Some t) None =>
          [IfStatement c (BlockStatement (renderDecisionTree t)) None]
      | Tree c None (Some f) =>
          [IfStatement (UnaryExpression "!" c)
             (BlockStatement (renderDecisionTree f)) None]
      | Tree c None None => [ExpressionStatement c]
      end
  end.
Proof.
  destruct tree as [c [t|] [f|]]; reflexivity.
Qed.

Lemma isSingleIfStatement_true statements :
  isSingleIfStatement statements = true ->
  exists s, statements = [s] /\ isIfStatement s = true.
Proof.
  destruct statements as [|s [|s' rest]]; simpl; try discriminate.
  intros H. exists s. auto.
Qed.

(** The if/else renderer always gives one statement. *)
Lemma renderDecisionTree_single tree :
  exists s,
    renderDecisionTree tree = [s]
    /\ (isSwitchStatement s || isIfStatement s || isExpressionStatement s
        = true).
Proof.
  rewrite renderDecisionTree_unfold.
  destruct (renderDecisionTreeWithSwitch tree) as [sw|] eqn:E.
  - apply renderDecisionTreeWithSwitch_Some in E.
    destruct E as [base [_ [_ ->]]]. eexists. split; reflexivity.
  - destruct tree as [c [t|] [f|]].
    + destruct (isSingleIfStatement (renderDecisionTree f));
        eexists; split; reflexivity.
    + eexists; split; reflexivity.
    + eexists; split; reflexivity.
    + eexists; split; reflexivity.
Qed.

Lemma renderDecisionTree_both c t f :
  renderDecisionTreeWithSwitch (Tree c (Some t) (Some f)) = None ->
  renderDecisionTree (Tree c (Some t) (Some f)) =
  [IfStatement c (BlockStatement (renderDecisionTree t))
     (Some (elseClause (renderDecisionTree f)))].
Proof.
  intros E. rewrite renderDecisionTree_unfold, E.
  destruct (renderDecisionTree f) as [|s [|s' rest]]; simpl; try reflexivity.
  destruct (isIfStatement s); reflexivity.
Qed.

(** *** Comparison bases *)

Lemma find_as_existsb (A : Type) (p : A -> bool) (l : list A) :
  match find p l with Some _ => true | None => false end = existsb p l.
Proof.
  induction l as [|x l IH]; simpl; [reflexivity|].
  destruct (p x); [reflexivity | exact IH].
Qed.

Lemma find_pointwise (A : Type) (p q : A -> bool) (l : list A) :
  (forall x, p x = q x) -> find p l = find q l.
Proof.
  intros H. induction l as [|x l IH]; simpl; [reflexivity|].
  rewrite H, IH. reflexivity.
Qed.

Lemma length_positive (A : Type) (l : list A) :
  (0 <? Z.of_nat (List.length l)) = negb (match l with [] => true | _ => false end).
Proof.
  destruct l; simpl; [reflexivity|]. apply Z.ltb_lt. lia.
Qed.

Lemma extractComparisonBases_or lhs rhs :
  extractComparisonBases (LogicalExpression OR lhs rhs) =
  match extractComparisonBases lhs, extractComparisonBases rhs with
  | [], _ => []
  | _, [] => []
  | leftBases, rightBases =>
      match firstCommonBase leftBases rightBases with
      | Some baseVariable => [baseVariable]
      | None => []
      end
  end.
Proof.
  cbn [extractComparisonBases]. rewrite !length_positive.
  unfold firstCommonBase, presentIn.
  destruct (extractComparisonBases lhs) as [|a la] eqn:El;
    destruct (extractComparisonBases rhs) as [|b lb] eqn:Er;
    cbn [negb andb]; try reflexivity.
  erewrite find_pointwise; [reflexivity|].
  intros x. apply find_as_existsb.
Qed.

Lemma extractComparisonBases_other node :
  isEqualityComparison node = false ->
  isOrExpression node = false ->
  extractComparisonBases node = [].
Proof.
  destruct node as [| op | | | | | | |]; try reflexivity.
  - destruct op; simpl; intros; try reflexivity. discriminate.
  - simpl. intros -> _. reflexivity.
Qed.

(** *** Switch cases *)

Lemma splitLast_snoc values value :
  splitLast (values ++ [value]) = (Some value, values).
Proof.
  unfold splitLast. rewrite rev_app_distr. simpl. rewrite rev_involutive.
  reflexivity.
Qed.

Lemma collectSwitchCase_unfold c t f base :
  hasBranch (Tree c t f) = true ->
  collectSwitchCase (Tree c t f) base =
  (let (lastComparisonValue, otherComparisonValues) :=
     splitLast (extractComparisonValues c base) in
   map (fun comparisonValue => switchCase (Some comparisonValue) [])
       otherComparisonValues
   ++ match lastComparisonValue with
      | Some lastComparisonValue =>
          match t with
          | Some trueBranch =>
              [switchCase (Some lastComparisonValue)
                 [ExpressionStatement (condition trueBranch);
                  BreakStatement]]
          | None => [switchCase (Some lastComparisonValue) []]
          end
      | None => []
      end
   ++ falseBranchCases f base).
Proof.
  destruct t, f; simpl; intros H; try reflexivity; discriminate.
Qed.

(** *** Statements the passes leave alone *)

Section Fixed.

Variable rewrite : Statement -> option (list Statement).

Hypothesis rewrite_if : forall t c a, rewrite (IfStatement t c a) = None.
Hypothesis rewrite_block : forall body, rewrite (BlockStatement body) = None.
Hypothesis rewrite_switch :
  forall d cases, rewrite (SwitchStatement d cases) = None.
Hypothesis rewrite_break : rewrite BreakStatement = None.
Hypothesis rewrite_plain :
  forall e, isTriggerExpression e = false ->
            rewrite (ExpressionStatement e) = None.
Hypothesis rewrite_return :
  forall e, isConditionalExpression e = false ->
            rewrite (ReturnStatement (Some e)) = None.

Lemma visitProgram_fixed body :
  Forall (fixedBy rewrite) body -> visitProgram rewrite body = body.
Proof.
  induction 1 as [|s l [Hs Hv] _ IH]; [reflexivity|].
  unfold visitProgram in *. simpl. rewrite Hs, Hv, IH. reflexivity.
Qed.

Lemma fixedBy_block body :
  Forall (fixedBy rewrite) body -> fixedBy rewrite (BlockStatement body).
Proof.
  intros H. split; [apply rewrite_block|].
  simpl. f_equal. apply (visitProgram_fixed body H).
Qed.

Lemma fixedBy_if t c a :
  fixedBy rewrite c ->
  match a with Some a' => fixedBy rewrite a' | None => True end ->
  fixedBy rewrite (IfStatement t c a).
Proof.
  intros [Hc Hvc] Ha. split; [apply rewrite_if|].
  simpl. rewrite Hc, Hvc.
  destruct a as [a'|]; [|reflexivity].
  destruct Ha as [Ha Hva]. simpl. rewrite Ha, Hva. reflexivity.
Qed.

Lemma fixedBy_switch d cases :
  Forall (fun c => Forall (fixedBy rewrite) (consequentOf c)) cases ->
  fixedBy rewrite (SwitchStatement d cases).
Proof.
  intros H. split; [apply rewrite_switch|].
  simpl. f_equal.
  induction H as [|c l Hc _ IH]; [reflexivity|].
  simpl. rewrite IH. destruct c as [test consequent].
  simpl in Hc. f_equal. f_equal.
  apply (visitProgram_fixed consequent Hc).
Qed.

Lemma fixedBy_action e :
  isTriggerExpression e = false -> fixedBy rewrite (ExpressionStatement e).
Proof.
  intros H. split; [apply rewrite_plain; assumption | reflexivity].
Qed.

Lemma fixedBy_case_body e :
  isTriggerExpression e = false ->
  Forall (fixedBy rewrite) [ExpressionStatement e; BreakStatement].
Proof.
  intros H. repeat constructor.
  - apply rewrite_plain; assumption.
  - apply rewrite_break.
Qed.

Lemma plainActions_leaf c :
  plainActions (Tree c None None) = true -> isTriggerExpression c = false.
Proof.
  simpl. intros H. apply negb_true_iff. assumption.
Qed.

Lemma plainActions_no_branch tree :
  hasBranch tree = false ->
  plainActions tree = true ->
  isTriggerExpression (condition tree) = false.
Proof.
  destruct tree as [c [t|] [f|]]; simpl; try discriminate.
  intros _ H. apply negb_true_iff. assumption.
Qed.

Lemma collectSwitchCase_fixed base :
  forall tree,
    plainActions tree = true ->
    Forall (fun c => Forall (fixedBy rewrite) (consequentOf c))
           (collectSwitchCase tree base).
Proof.
  assert (Hfalse : forall f,
             match f with
             | Some f' =>
                 plainActions f' = true /\
                 (plainActions f' = true ->
                  Forall (fun c => Forall (fixedBy rewrite) (consequentOf c))
                         (collectSwitchCase f' base))
             | None => True
             end ->
             Forall (fun c => Forall (fixedBy rewrite) (consequentOf c))
                    (falseBranchCases f base)).
  { intros [f'|] H; simpl; [|constructor].
    destruct H as [Hp IH].
    destruct (hasBranch f') eqn:E; [apply IH; assumption|].
    apply Forall_cons; [|apply Forall_nil]. simpl. apply fixedBy_case_body.
    apply plainActions_no_branch; assumption. }
  assert (Hvalues : forall values,
             Forall (fun c => Forall (fixedBy rewrite) (consequentOf c))
                    (map (fun v => switchCase (Some v) []) values)).
  { induction values; simpl; [apply Forall_nil|].
    apply Forall_cons; [apply Forall_nil | assumption]. }
  assert (Hlast : forall (lastValue : option Expression) t,
             match t with
             | Some t' => isTriggerExpression (condition t') = false
             | None => True
             end ->
             Forall (fun c => Forall (fixedBy rewrite) (consequentOf c))
                    match lastValue with
                    | Some v =>
                        match t with
                        | Some t' =>
                            [switchCase (Some v)
                               [ExpressionStatement (condition t');
                                BreakStatement]]
                        | None => [switchCase (Some v) []]
                        end
                    | None => []
                    end).
  { intros [v|] [t'|] H.
    - apply Forall_cons; [|apply Forall_nil].
      simpl. apply fixedBy_case_body. assumption.
    - apply Forall_cons; [|apply Forall_nil]. apply Forall_nil.
    - apply Forall_nil.
    - apply Forall_nil. }
  assert (Hnode : forall c t f,
             hasBranch (Tree c t f) = true ->
             match t with
             | Some t' => isTriggerExpression (condition t') = false
             | None => True
             end ->
             Forall (fun c => Forall (fixedBy rewrite) (consequentOf c))
                    (falseBranchCases f base) ->
             Forall (fun c => Forall (fixedBy rewrite) (consequentOf c))
                    (collectSwitchCase (Tree c t f) base)).
  { intros c t f Hb Ht Hf. rewrite collectSwitchCase_unfold by assumption.
    destruct (splitLast _) as [lastValue others].
    apply Forall_app. split; [apply Hvalues|].
    apply Forall_app. split; [apply Hlast; assumption | assumption]. }
  induction tree as [c | c t IHt | c f IHf | c t f IHt IHf]
    using DecisionTree_shape_ind; intros Hp.
  - constructor.
  - simpl in Hp. apply andb_true_iff in Hp. destruct Hp as [Hp _].
    apply andb_true_iff in Hp. destruct Hp as [Hc Hp].
    apply negb_true_iff in Hc.
    apply Hnode; [reflexivity | assumption | constructor].
  - simpl in Hp.
    apply Hnode; [reflexivity | exact I |].
    apply Hfalse. split; assumption.
  - simpl in Hp. apply andb_true_iff in Hp. destruct Hp as [Hp Hf].
    apply andb_true_iff in Hp. destruct Hp as [Hc Hp].
    apply negb_true_iff in Hc.
    apply Hnode; [reflexivity | assumption |].
    apply Hfalse. split; assumption.
Qed.

(** The output of the if/else renderer is left alone when no ternary or
    logical expression of the tree can land in statement position. *)
Lemma renderDecisionTree_fixed :
  forall tree,
    plainActions tree = true ->
    Forall (fixedBy rewrite) (renderDecisionTree tree).
Proof.
  induction tree as [c | c t IHt | c f IHf | c t f IHt IHf]
    using DecisionTree_shape_ind; intros Hp;
    rewrite renderDecisionTree_unfold;
    (destruct (renderDecisionTreeWithSwitch _) as [sw|] eqn:E;
     [apply renderDecisionTreeWithSwitch_Some in E;
      destruct E as [base [_ [_ ->]]];
      constructor; [|constructor];
      apply fixedBy_switch; apply collectSwitchCase_fixed; assumption|]).
  - constructor; [|constructor]. apply fixedBy_action.
    apply plainActions_leaf. assumption.
  - simpl in Hp. apply andb_true_iff in Hp. destruct Hp as [Hp _].
    apply andb_true_iff in Hp. destruct Hp as [_ Hp].
    constructor; [|constructor].
    apply fixedBy_if; [|exact I]. apply fixedBy_block. auto.
  - simpl in Hp.
    constructor; [|constructor].
    apply fixedBy_if; [|exact I]. apply fixedBy_block. auto.
  - simpl in Hp. apply andb_true_iff in Hp. destruct Hp as [Hp Hf].
    apply andb_true_iff in Hp. destruct Hp as [_ Hp].
    specialize (IHt Hp). specialize (IHf Hf).
    destruct (isSingleIfStatement (renderDecisionTree f)) eqn:Es.
    + apply isSingleIfStatement_true in Es. destruct Es as [s [Es _]].
      rewrite Es in *. simpl.
      constructor; [|constructor].
      apply fixedBy_if; [apply fixedBy_block; assumption|].
      inversion IHf; assumption.
    + constructor; [|constructor].
      apply fixedBy_if; apply fixedBy_block; assumption.
Qed.

(** The output of the early-return renderer is left alone when no leaf of the
    tree is a ternary or logical expression. *)
Lemma renderDecisionTreeWithEarlyReturn_fixed :
  forall tree,
    leavesPlain tree = true ->
    Forall (fixedBy rewrite) (renderDecisionTreeWithEarlyReturn tree).
Proof.
  induction tree as [c | c t IHt | c f IHf | c t f IHt IHf]
    using DecisionTree_shape_ind; simpl; intros Hp.
  - constructor; [|constructor]. split; [|reflexivity].
    apply rewrite_return. apply negb_true_iff in Hp.
    unfold isTriggerExpression in Hp. apply orb_false_iff in Hp. tauto.
  - rewrite andb_true_r in Hp. constructor; [|constructor].
    apply fixedBy_if; [|exact I]. apply fixedBy_block. auto.
  - constructor; [|constructor].
    apply fixedBy_if; [|exact I]. apply fixedBy_block. auto.
  - apply andb_true_iff in Hp. destruct Hp as [Ht Hf].
    constructor; [|auto].
    apply fixedBy_if; [|exact I]. apply fixedBy_block. auto.
Qed.

End Fixed.

Lemma makeDecisionTree_leavesPlain node :
  leavesPlain (makeDecisionTree node) = true.
Proof.
  induction node as [t _ c IHc a IHa | op l _ r IHr | | | | | | |];
    try reflexivity.
  - simpl. rewrite IHc, IHa. reflexivity.
  - destruct op; simpl; rewrite IHr; reflexivity.
Qed.

Lemma transformAST_fixed body :
  Forall (fixedBy rewriteConditionalStatement) body ->
  Forall (fixedBy rewriteReturnStatement) body ->
  Forall (fixedBy rewriteLogicalStatement) body ->
  transformAST body = body.
Proof.
  intros H1 H2 H3. unfold transformAST.
  rewrite (visitProgram_fixed _ body H1).
  rewrite (visitProgram_fixed _ body H2).
  apply (visitProgram_fixed _ body H3).
Qed.

(** A second run leaves the output of the if/else renderer alone when no
    ternary or logical expression of the tree can land in statement
    position, and always leaves the output of the early-return renderer on
    the tree of an expression alone. *)
Lemma transformAST_rendered tree :
  plainActions tree = true ->
  transformAST (renderDecisionTree tree) = renderDecisionTree tree.
Proof.
  intros Hp. apply transformAST_fixed;
    apply renderDecisionTree_fixed; try assumption; try reflexivity;
    intros e He; destruct e; try reflexivity; discriminate.
Qed.

Lemma transformAST_early_return node :
  transformAST (renderDecisionTreeWithEarlyReturn (makeDecisionTree node))
  = renderDecisionTreeWithEarlyReturn (makeDecisionTree node).
Proof.
  apply transformAST_fixed;
    apply renderDecisionTreeWithEarlyReturn_fixed;
    try apply makeDecisionTree_leavesPlain; try reflexivity;
    intros e He; destruct e; try reflexivity; discriminate.
Qed.

End Rendering.

(** * Properties *)

(** Runs the renderers on a concrete expression under any printer: the
    comparisons of a source text with itself are true, and the outcome does
    not depend on the ones that are left. *)
Ltac run_renderer :=
  intros;
  repeat (cbv - [String.eqb]; rewrite ?String.eqb_refl, ?orb_true_r);
  repeat match goal with
         | |- context [String.eqb ?x ?y] => destruct (String.eqb x y)
         end;
  cbv; try reflexivity.

(** ** The decision tree builder *)

(** C1. makeDecisionTree is a total function on expressions (it is a Rocq
    function, so it returns a tree for every expression), and it follows these
    rules: a conditional gives its test with the trees of both arms; AND gives
    the left operand with the tree of the right operand as true branch; OR
    gives the left operand with the tree of the right operand as false branch;
    NULLISH gives the synthesized test [left == null] with the tree of the
    right operand as true branch; any other expression gives the leaf holding
    the expression itself. *)
Theorem makeDecisionTree_rules :
  (forall node, exists tree, makeDecisionTree node = tree)
  /\ (forall test consequent alternate,
        makeDecisionTree (ConditionalExpression test consequent alternate)
        = Tree test (Some (makeDecisionTree consequent))
               (Some (makeDecisionTree alternate)))
  /\ (forall lhs rhs,
        makeDecisionTree (LogicalExpression AND lhs rhs)
        = Tree lhs (Some (makeDecisionTree rhs)) None)
  /\ (forall lhs rhs,
        makeDecisionTree (LogicalExpression OR lhs rhs)
        = Tree lhs None (Some (makeDecisionTree rhs)))
  /\ (forall lhs rhs,
        makeDecisionTree (LogicalExpression NULLISH lhs rhs)
        = Tree (BinaryExpression "==" lhs (Identifier "null"))
               (Some (makeDecisionTree rhs)) None)
  /\ (forall node,
        isConditionalExpression node = false ->
        isLogicalExpression node = false ->
        makeDecisionTree node = Tree node None None).
Proof.
  repeat split; try reflexivity.
  - eexists; reflexivity.
  - intros node Hc Hl. destruct node; try reflexivity; discriminate.
Qed.

Lemma makeDecisionTree_rules_witness :
  makeDecisionTree (call "f") = Tree (call "f") None None.
Proof.
  apply (proj2 (proj2 (proj2 (proj2 (proj2 makeDecisionTree_rules)))));
    reflexivity.
Defined.

(** ** Switch synthesis *)

(** C2. A base qualifies for a switch (its count is at least
    SWITCH_THRESHOLD) if and only if the deepest valid chain for it, a path
    from the root to a leaf on which every internal node tests the base,
    reaches at least 3 internal nodes; the switch is built on a candidate base
    of the root condition that qualifies, and none is built when no candidate
    does.  a==1?f():a==2?g():a==3?h():k() gives switch(a) with the cases 1, 2,
    3 and default; a==1?f():a==2?g():h() gives no switch and renders as an if
    with an else-if. *)
Theorem switch_threshold :
  (forall toSource base tree,
     (SWITCH_THRESHOLD
        <=? countBaseVariableUsedInAllBranches toSource base tree 0) = true
     <-> exists n, (3 <= n)%nat /\ validChain toSource base tree n)
  /\ (forall toSource tree statement,
        renderDecisionTreeWithSwitch toSource tree = Some statement ->
        exists base,
          In base (extractComparisonBases toSource (condition tree))
          /\ reachesThreshold toSource base tree
          /\ statement
             = SwitchStatement base (collectSwitchCase toSource tree base))
  /\ (forall toSource tree,
        renderDecisionTreeWithSwitch toSource tree = None
        <-> forall base,
              In base (extractComparisonBases toSource (condition tree)) ->
              ~ reachesThreshold toSource base tree)
  /\ (forall toSource,
        renderDecisionTree toSource (makeDecisionTree switchChain)
     = [SwitchStatement (Identifier "a")
          [switchCase (Some (Literal "1"))
             [ExpressionStatement (call "f"); BreakStatement];
           switchCase (Some (Literal "2"))
             [ExpressionStatement (call "g"); BreakStatement];
           switchCase (Some (Literal "3"))
             [ExpressionStatement (call "h"); BreakStatement];
           switchCase None
             [ExpressionStatement (call "k"); BreakStatement]]])
  /\ (forall toSource,
        renderDecisionTreeWithSwitch toSource (makeDecisionTree shortChain)
        = None)
  /\ (forall toSource,
        renderDecisionTree toSource (makeDecisionTree shortChain)
     = [IfStatement (looseEq (Identifier "a") (Literal "1"))
          (BlockStatement [ExpressionStatement (call "f")])
          (Some
             (IfStatement (looseEq (Identifier "a") (Literal "2"))
                (BlockStatement [ExpressionStatement (call "g")])
                (Some (BlockStatement [ExpressionStatement (call "h")]))))]).
Proof.
  split; [|split; [|split; [|split; [|split]]]].
  - intros toSource base tree. apply qualifies_iff.
  - intros toSource tree statement H.
    apply renderDecisionTreeWithSwitch_Some in H.
    destruct H as [base [Hin [Hq Hs]]]. exists base.
    split; [assumption|]. split; [|assumption].
    apply qualifies_iff. assumption.
  - intros toSource tree. rewrite renderDecisionTreeWithSwitch_None.
    split; intros H base Hin.
    + intros Hr. apply qualifies_iff in Hr. rewrite (H _ Hin) in Hr.
      discriminate.
    + destruct (qualifies toSource tree base) eqn:E; [|reflexivity].
      exfalso. apply (H _ Hin). apply qualifies_iff. assumption.
  - run_renderer.
  - run_renderer.
  - run_renderer.
Qed.

Lemma switch_threshold_witness :
  exists base,
    In base (extractComparisonBases printExpression
               (condition (makeDecisionTree switchChain)))
    /\ reachesThreshold printExpression base (makeDecisionTree switchChain)
    /\ SwitchStatement (Identifier "a")
         (collectSwitchCase printExpression (makeDecisionTree switchChain)
            (Identifier "a"))
       = SwitchStatement base
           (collectSwitchCase printExpression (makeDecisionTree switchChain)
              base).
Proof.
  apply (proj1 (proj2 switch_threshold) printExpression
           (makeDecisionTree switchChain)).
  vm_compute. reflexivity.
Defined.

(** C3, as the specification states it, fails: for a=='x'||a=='y'?f():g() the
    renderer gives no switch statement at all. *)
Lemma fallthroughPair_is_not_a_switch :
  ~ exists discriminant cases,
      renderDecisionTree printExpression (makeDecisionTree fallthroughPair)
      = [SwitchStatement discriminant cases].
Proof.
  intros [discriminant [cases H]]. vm_compute in H. discriminate H.
Qed.

(** C3, amended.  The tree of a=='x'||a=='y'?f():g() has one internal node,
    below the threshold, so it renders as an if with an else block.  Case
    collection on that tree does group the two labels over one body, and the
    grouping shows in a switch once the chain is long enough, as in
    a==1?p():a==2?q():a=='x'||a=='y'?f():g(). *)
Theorem fallthrough_grouping :
  forall toSource,
    countBaseVariableUsedInAllBranches toSource (Identifier "a")
      (makeDecisionTree fallthroughPair) 0 = 1
    /\ renderDecisionTree toSource (makeDecisionTree fallthroughPair)
       = [IfStatement eitherXY
            (BlockStatement [ExpressionStatement (call "f")])
            (Some (BlockStatement [ExpressionStatement (call "g")]))]
    /\ collectSwitchCase toSource (makeDecisionTree fallthroughPair)
         (Identifier "a")
       = [switchCase (Some (Literal "'x'")) [];
          switchCase (Some (Literal "'y'"))
            [ExpressionStatement (call "f"); BreakStatement];
          switchCase None [ExpressionStatement (call "g"); BreakStatement]]
    /\ renderDecisionTree toSource (makeDecisionTree fallthroughChain)
       = [SwitchStatement (Identifier "a")
            [switchCase (Some (Literal "1"))
               [ExpressionStatement (call "p"); BreakStatement];
             switchCase (Some (Literal "2"))
               [ExpressionStatement (call "q"); BreakStatement];
             switchCase (Some (Literal "'x'")) [];
             switchCase (Some (Literal "'y'"))
               [ExpressionStatement (call "f"); BreakStatement];
             switchCase None
               [ExpressionStatement (call "g"); BreakStatement]]].
Proof.
  intros toSource. repeat split; run_renderer.
Qed.

(** ** The if/else renderer *)

(** C4.  For every tree with both branches, once switch synthesis has given
    nothing, the renderer gives one if statement whose else clause is
    the rendering of the false side itself when that is exactly one if
    statement, and a block around that rendering otherwise; for
    a ? f() : b ? g() : h() the result is one if whose alternate is an if. *)
Theorem else_if_flattening :
  (forall toSource c t f,
     renderDecisionTreeWithSwitch toSource (Tree c (Some t) (Some f)) = None ->
     renderDecisionTree toSource (Tree c (Some t) (Some f))
     = [IfStatement c
          (BlockStatement (renderDecisionTree toSource t))
          (Some
             match renderDecisionTree toSource f with
             | [statement] =>
                 if isIfStatement statement then statement
                 else BlockStatement [statement]
             | falseBranchStatements => BlockStatement falseBranchStatements
             end)])
  /\ (forall toSource,
        renderDecisionTree toSource (makeDecisionTree elseIfChain)
        = [IfStatement (Identifier "a")
             (BlockStatement [ExpressionStatement (call "f")])
             (Some
                (IfStatement (Identifier "b")
                   (BlockStatement [ExpressionStatement (call "g")])
                   (Some (BlockStatement [ExpressionStatement (call "h")]))))]).
Proof.
  split.
  - intros toSource c t f H.
    rewrite (renderDecisionTree_both toSource c t f H).
    unfold elseClause.
    destruct (renderDecisionTree toSource f) as [|s [|s' rest]]; reflexivity.
  - run_renderer.
Qed.

Lemma else_if_flattening_witness :
  renderDecisionTree printExpression (makeDecisionTree elseIfChain)
  = [IfStatement (Identifier "a")
       (BlockStatement
          (renderDecisionTree printExpression (makeDecisionTree (call "f"))))
       (Some
          match
            renderDecisionTree printExpression
              (makeDecisionTree
                 (ternary (Identifier "b") (call "g") (call "h")))
          with
          | [statement] =>
              if isIfStatement statement then statement
              else BlockStatement [statement]
          | falseBranchStatements => BlockStatement falseBranchStatements
          end)].
Proof.
  apply (proj1 else_if_flattening printExpression (Identifier "a")
           (makeDecisionTree (call "f"))
           (makeDecisionTree (ternary (Identifier "b") (call "g") (call "h")))).
  vm_compute. reflexivity.
Defined.

(** C10. For every decision tree the if/else renderer gives exactly one
    statement, a switch, an if or an expression statement, while the
    early-return renderer may give several: three for
    a ? f() : b ? g() : h(). *)
Theorem renderDecisionTree_one_statement :
  (forall toSource tree,
     exists statement,
       renderDecisionTree toSource tree = [statement]
       /\ (isSwitchStatement statement || isIfStatement statement
           || isExpressionStatement statement = true))
  /\ List.length
       (renderDecisionTreeWithEarlyReturn (makeDecisionTree elseIfChain))
     = 3%nat.
Proof.
  split.
  - intros toSource tree. apply renderDecisionTree_single.
  - reflexivity.
Qed.

(** C7. The statement a ?? f() renders as if (a == null) { f() }, an if on
    the loose comparison with null and without an else. *)
Theorem nullish_normalization :
  forall toSource,
    makeDecisionTree nullishGuard
    = Tree (BinaryExpression "==" (Identifier "a") (Identifier "null"))
           (Some (leaf (call "f"))) None
    /\ renderDecisionTree toSource (makeDecisionTree nullishGuard)
       = [IfStatement
            (BinaryExpression "==" (Identifier "a") (Identifier "null"))
            (BlockStatement [ExpressionStatement (call "f")])
            None]
    /\ transformAST toSource [ExpressionStatement nullishGuard]
       = [IfStatement
            (BinaryExpression "==" (Identifier "a") (Identifier "null"))
            (BlockStatement [ExpressionStatement (call "f")])
            None].
Proof.
  intros toSource. split; [reflexivity|]. split; run_renderer.
Qed.

(** ** The early-return renderer *)

(** C5. For every tree with both branches the early-return renderer gives the
    if guarding the early-return rendering of the true branch, without else,
    followed by the statements of the false branch at the same level;
    return a ? f() : b ? g() : h() gives two ifs without else and then
    return h(). *)
Theorem early_return_flattening :
  (forall c t f,
     renderDecisionTreeWithEarlyReturn (Tree c (Some t) (Some f))
     = IfStatement c (BlockStatement (renderDecisionTreeWithEarlyReturn t))
         None
       :: renderDecisionTreeWithEarlyReturn f)
  /\ renderDecisionTreeWithEarlyReturn (makeDecisionTree elseIfChain)
     = [IfStatement (Identifier "a")
          (BlockStatement [ReturnStatement (Some (call "f"))]) None;
        IfStatement (Identifier "b")
          (BlockStatement [ReturnStatement (Some (call "g"))]) None;
        ReturnStatement (Some (call "h"))]
  /\ rewriteReturnStatement (ReturnStatement (Some elseIfChain))
     = Some
         [IfStatement (Identifier "a")
            (BlockStatement [ReturnStatement (Some (call "f"))]) None;
          IfStatement (Identifier "b")
            (BlockStatement [ReturnStatement (Some (call "g"))]) None;
          ReturnStatement (Some (call "h"))].
Proof.
  repeat split.
Qed.

(** ** Comparison bases *)

(** C6, as stated, fails on the OR of two comparisons: in a == b || b == a
    both a and b are candidates of both sides, and the extraction keeps a
    alone. *)
Lemma or_bases_not_all_common :
  extractComparisonBases printExpression mirroredPair = [Identifier "a"]
  /\ ~ (forall base,
          presentIn printExpression base
            (extractComparisonBases printExpression
               (looseEq (Identifier "a") (Identifier "b"))) = true ->
          presentIn printExpression base
            (extractComparisonBases printExpression
               (looseEq (Identifier "b") (Identifier "a"))) = true ->
          presentIn printExpression base
            (extractComparisonBases printExpression mirroredPair) = true).
Proof.
  split; [vm_compute; reflexivity|].
  intros H. specialize (H (Identifier "b") eq_refl eq_refl).
  vm_compute in H. discriminate H.
Qed.

(** C6, amended.  For an equality comparison (== or ===) between L and R the
    bases are L and R without the operands that are a Literal or a Call; for
    an OR whose sides both yield candidates the result is at most one base,
    the first candidate of the left side that is also a candidate of the right
    side by areNodesEqual (so every base returned is present on both sides),
    and empty when there is none; when a side of the OR yields no candidate,
    and for every other expression, the result is empty. *)
Theorem extractComparisonBases_rules :
  forall toSource,
    (forall operator lhs rhs base,
       isEqualityOperator operator = true ->
       (In base
          (extractComparisonBases toSource
             (BinaryExpression operator lhs rhs))
        <-> (base = lhs \/ base = rhs)
            /\ isLiteral base = false /\ isCallExpression base = false))
    /\ (forall lhs rhs,
          extractComparisonBases toSource lhs <> [] ->
          extractComparisonBases toSource rhs <> [] ->
          extractComparisonBases toSource (LogicalExpression OR lhs rhs)
          = match find (fun node1 =>
                          existsb (fun node2 =>
                                     areNodesEqual toSource node1 node2)
                                  (extractComparisonBases toSource rhs))
                       (extractComparisonBases toSource lhs) with
            | Some baseVariable => [baseVariable]
            | None => []
            end)
    /\ (forall lhs rhs base,
          In base
            (extractComparisonBases toSource (LogicalExpression OR lhs rhs)) ->
          In base (extractComparisonBases toSource lhs)
          /\ presentIn toSource base (extractComparisonBases toSource rhs)
             = true)
    /\ (forall lhs rhs,
          extractComparisonBases toSource lhs = []
          \/ extractComparisonBases toSource rhs = [] ->
          extractComparisonBases toSource (LogicalExpression OR lhs rhs) = [])
    /\ (forall node,
          isEqualityComparison node = false ->
          isOrExpression node = false ->
          extractComparisonBases toSource node = []).
Proof.
  intros toSource. split; [|split; [|split; [|split]]].
  - intros operator lhs rhs base Hop. cbn [extractComparisonBases].
    rewrite Hop, filter_In. unfold isComparisonBase. simpl.
    split.
    + intros [Hin H]. split.
      * destruct Hin as [E | [E | []]]; [left | right]; symmetry; exact E.
      * destruct (isLiteral base); [discriminate|].
        destruct (isCallExpression base); [discriminate|]. auto.
    + intros [Hin [-> ->]]. split; [|reflexivity].
      destruct Hin as [E | E]; [left | right; left]; symmetry; exact E.
  - intros lhs rhs Hl Hr. rewrite extractComparisonBases_or.
    destruct (extractComparisonBases toSource lhs); [congruence|].
    destruct (extractComparisonBases toSource rhs); [congruence|].
    reflexivity.
  - intros lhs rhs base. rewrite extractComparisonBases_or.
    destruct (extractComparisonBases toSource lhs) as [|a la] eqn:El;
      [intros []|].
    destruct (extractComparisonBases toSource rhs) as [|b lb] eqn:Er;
      [intros []|].
    destruct (firstCommonBase toSource (a :: la) (b :: lb)) as [x|] eqn:E;
      [|intros []].
    intros [<- | []]. apply find_some in E. exact E.
  - intros lhs rhs H. rewrite extractComparisonBases_or.
    destruct H as [-> | ->]; [reflexivity|].
    destruct (extractComparisonBases toSource lhs); reflexivity.
  - intros node. apply extractComparisonBases_other.
Qed.

Lemma extractComparisonBases_rules_witness :
  (In (Identifier "a")
      (extractComparisonBases printExpression
         (BinaryExpression "===" (Identifier "a") (Literal "1")))
   <-> (Identifier "a" = Identifier "a" \/ Identifier "a" = Literal "1")
       /\ isLiteral (Identifier "a") = false
       /\ isCallExpression (Identifier "a") = false)
  /\ extractComparisonBases printExpression mirroredPair = [Identifier "a"]
  /\ (In (Identifier "a")
         (extractComparisonBases printExpression
            (looseEq (Identifier "a") (Identifier "b")))
      /\ presentIn printExpression (Identifier "a")
           (extractComparisonBases printExpression
              (looseEq (Identifier "b") (Identifier "a"))) = true)
  /\ extractComparisonBases printExpression
       (LogicalExpression OR (looseEq (Identifier "a") (Literal "1"))
          (call "f")) = []
  /\ extractComparisonBases printExpression
       (LogicalExpression AND (looseEq (Identifier "a") (Literal "1"))
          (looseEq (Identifier "a") (Literal "2"))) = [].
Proof.
  pose proof (extractComparisonBases_rules printExpression)
    as [Heq [Hor [Hboth [Hside Hother]]]].
  split; [|split; [|split; [|split]]].
  - apply Heq. reflexivity.
  - apply (Hor (looseEq (Identifier "a") (Identifier "b"))
               (looseEq (Identifier "b") (Identifier "a")));
      vm_compute; discriminate.
  - apply (Hboth (looseEq (Identifier "a") (Identifier "b"))
                 (looseEq (Identifier "b") (Identifier "a"))).
    vm_compute. left. reflexivity.
  - apply Hside. right. reflexivity.
  - apply Hother; reflexivity.
Defined.

(** ** Switch cases *)

(** C8. When the condition of a node tests the base against at least one
    value and the node has a true branch, the case of the last value has the
    body [ExpressionStatement(trueBranch.condition), Break], whatever the
    true branch is: the cases collected are those of the same node with the
    true branch cut down to a leaf holding its condition, and collection is a
    total function, so nothing fails. *)
Theorem collectSwitchCase_true_branch :
  forall toSource,
    (forall cond trueBranch falseBranch base values value,
       extractComparisonValues toSource cond base = values ++ [value] ->
       collectSwitchCase toSource
         (Tree cond (Some trueBranch) falseBranch) base
       = map (fun comparisonValue => switchCase (Some comparisonValue) [])
             values
         ++ [switchCase (Some value)
               [ExpressionStatement (condition trueBranch); BreakStatement]]
         ++ falseBranchCases toSource falseBranch base)
    /\ (forall cond trueBranch falseBranch base,
          collectSwitchCase toSource
            (Tree cond (Some trueBranch) falseBranch) base
          = collectSwitchCase toSource
              (Tree cond (Some (leaf (condition trueBranch))) falseBranch)
              base).
Proof.
  intros toSource. split.
  - intros cond trueBranch falseBranch base values value H.
    rewrite collectSwitchCase_unfold by reflexivity.
    rewrite H, splitLast_snoc. reflexivity.
  - intros cond trueBranch falseBranch base.
    rewrite !collectSwitchCase_unfold by reflexivity. reflexivity.
Qed.

Lemma collectSwitchCase_true_branch_witness :
  collectSwitchCase printExpression (makeDecisionTree truncatedArm)
    (Identifier "a")
  = map (fun comparisonValue => switchCase (Some comparisonValue) []) []
    ++ [switchCase (Some (Literal "1"))
          [ExpressionStatement
             (ternary (Identifier "p") (Identifier "q") (Identifier "r"));
           BreakStatement]]
    ++ falseBranchCases printExpression
         (Some (makeDecisionTree
                  (ternary (looseEq (Identifier "a") (Literal "2")) (call "g")
                     (ternary (looseEq (Identifier "a") (Literal "3"))
                        (call "h") (call "k")))))
         (Identifier "a").
Proof.
  apply (proj1 (collectSwitchCase_true_branch printExpression)
           (looseEq (Identifier "a") (Literal "1"))
           (makeDecisionTree
              (ternary
                 (ternary (Identifier "p") (Identifier "q") (Identifier "r"))
                 (call "x") (call "y")))).
  vm_compute. reflexivity.
Defined.

(** ** Running the transformation again *)

(** C9 does not hold of the code.  On the statement
    a==1 ? ((p ? q : r) ? x() : y()) : a==2 ? g() : a==3 ? h() : k()
    the transformation gives a switch whose first case has the body
    [p ? q : r; break]: the guard of the true branch, a ternary in statement
    position, with the calls x() and y() gone.  A second run rewrites that
    statement into an if, so the second run changes the output of the
    first. *)
Theorem rerun_changes_truncated_switch :
  forall toSource,
    transformAST toSource [ExpressionStatement truncatedArm]
    = [SwitchStatement (Identifier "a")
         [switchCase (Some (Literal "1"))
            [ExpressionStatement
               (ternary (Identifier "p") (Identifier "q") (Identifier "r"));
             BreakStatement];
          switchCase (Some (Literal "2"))
            [ExpressionStatement (call "g"); BreakStatement];
          switchCase (Some (Literal "3"))
            [ExpressionStatement (call "h"); BreakStatement];
          switchCase None
            [ExpressionStatement (call "k"); BreakStatement]]]
    /\ transformAST toSource
         (transformAST toSource [ExpressionStatement truncatedArm])
       = [SwitchStatement (Identifier "a")
            [switchCase (Some (Literal "1"))
               [IfStatement (Identifier "p")
                  (BlockStatement [ExpressionStatement (Identifier "q")])
                  (Some
                     (BlockStatement [ExpressionStatement (Identifier "r")]));
                BreakStatement];
             switchCase (Some (Literal "2"))
               [ExpressionStatement (call "g"); BreakStatement];
             switchCase (Some (Literal "3"))
               [ExpressionStatement (call "h"); BreakStatement];
             switchCase None
               [ExpressionStatement (call "k"); BreakStatement]]]
    /\ transformAST toSource
         (transformAST toSource [ExpressionStatement truncatedArm])
       <> transformAST toSource [ExpressionStatement truncatedArm].
Proof.
  intros toSource.
  assert (H1 : transformAST toSource [ExpressionStatement truncatedArm]
               = [SwitchStatement (Identifier "a")
                    [switchCase (Some (Literal "1"))
                       [ExpressionStatement
                          (ternary (Identifier "p") (Identifier "q")
                             (Identifier "r"));
                        BreakStatement];
                     switchCase (Some (Literal "2"))
                       [ExpressionStatement (call "g"); BreakStatement];
                     switchCase (Some (Literal "3"))
                       [ExpressionStatement (call "h"); BreakStatement];
                     switchCase None
                       [ExpressionStatement (call "k"); BreakStatement]]])
    by run_renderer.
  split; [exact H1|]. rewrite H1.
  split; [run_renderer | run_renderer; discriminate].
Qed.

(** * Further properties *)

(** ** What the renderings run *)

Section RunningRenderings.

Variable truth : Expression -> bool.
Variable matches : Expression -> Expression -> bool.

Lemma andThen_done (o : Outcome) : andThen o ([], Completed) = o.
Proof.
  destruct o as [actions [| |argument]]; unfold andThen; simpl;
    rewrite ?app_nil_r; reflexivity.
Qed.

Lemma execStatements_cons s rest :
  execStatements truth matches (s :: rest)
  = andThen (execStatement truth matches s)
            (execStatements truth matches rest).
Proof. reflexivity. Qed.

Lemma execStatements_single s :
  execStatements truth matches [s] = execStatement truth matches s.
Proof. rewrite execStatements_cons. apply andThen_done. Qed.

Lemma execStatement_block body :
  execStatement truth matches (BlockStatement body)
  = execStatements truth matches body.
Proof. reflexivity. Qed.

Lemma execStatement_if test consequent alternate :
  execStatement truth matches (IfStatement test consequent alternate)
  = if evalTest truth test then execStatement truth matches consequent
    else match alternate with
         | Some alternate' => execStatement truth matches alternate'
         | None => ([], Completed)
         end.
Proof. reflexivity. Qed.

Lemma evalTest_not c :
  evalTest truth (UnaryExpression "!" c) = negb (evalTest truth c).
Proof. reflexivity. Qed.

Lemma selectLeaf_makeDecisionTree node :
  selectLeaf truth (makeDecisionTree node) = evalAction truth node.
Proof.
  induction node as [t _ c IHc a IHa | op l _ r IHr | | | | | | |];
    try reflexivity.
  - simpl. rewrite IHc, IHa. reflexivity.
  - destruct op; simpl; rewrite IHr; reflexivity.
Qed.

Lemma early_return_selected :
  forall tree action,
    selectLeaf truth tree = Some action ->
    execStatements truth matches (renderDecisionTreeWithEarlyReturn tree)
    = ([], Returned (Some action)).
Proof.
  induction tree as [c | c t IHt | c f IHf | c t f IHt IHf]
    using DecisionTree_shape_ind; intros action; simpl selectLeaf;
    cbn [renderDecisionTreeWithEarlyReturn].
  - intros H. injection H as <-. reflexivity.
  - destruct (evalTest truth c) eqn:E; [|discriminate]. intros H.
    rewrite execStatements_single, execStatement_if, E,
      execStatement_block.
    apply IHt. assumption.
  - destruct (evalTest truth c) eqn:E; [discriminate|]. intros H.
    rewrite execStatements_single, execStatement_if, evalTest_not, E,
      execStatement_block.
    apply IHf. assumption.
  - intros H. rewrite execStatements_cons, execStatement_if.
    destruct (evalTest truth c) eqn:E.
    + rewrite execStatement_block, (IHt _ H). reflexivity.
    + rewrite (IHf _ H). reflexivity.
Qed.

Lemma bothOrLeaf_selects :
  forall tree,
    bothOrLeaf tree = true ->
    exists action,
      selectLeaf truth tree = Some action /\ In action (leaves tree).
Proof.
  induction tree as [c | c t IHt | c f IHf | c t f IHt IHf]
    using DecisionTree_shape_ind; simpl; intros H; try discriminate.
  - exists c. split; [reflexivity | left; reflexivity].
  - apply andb_true_iff in H. destruct H as [Ht Hf].
    destruct (IHt Ht) as [a [Ha Hin]]. destruct (IHf Hf) as [b [Hb Hin']].
    destruct (evalTest truth c).
    + exists a. split; [assumption|]. apply in_or_app. left. assumption.
    + exists b. split; [assumption|]. apply in_or_app. right. assumption.
Qed.

Lemma early_return_falls_through c t f :
  evalTest truth c = true ->
  execStatements truth matches (renderDecisionTreeWithEarlyReturn t)
  = ([], Completed) ->
  selectLeaf truth (Tree c (Some t) (Some f)) = None
  /\ execStatements truth matches
       (renderDecisionTreeWithEarlyReturn (Tree c (Some t) (Some f)))
     = execStatements truth matches (renderDecisionTreeWithEarlyReturn f).
Proof.
  intros E H. split.
  - simpl. rewrite E. destruct (selectLeaf truth t) as [a|] eqn:Es;
      [|reflexivity].
    rewrite (early_return_selected t a Es) in H. discriminate.
  - cbn [renderDecisionTreeWithEarlyReturn].
    rewrite execStatements_cons, execStatement_if, E, execStatement_block, H.
    unfold andThen. simpl.
    destruct (execStatements truth matches
                (renderDecisionTreeWithEarlyReturn f)); reflexivity.
Qed.

End RunningRenderings.

Section RunningIfElse.

Variable toSource : Expression -> string.
Variable truth : Expression -> bool.
Variable matches : Expression -> Expression -> bool.

Lemma switchFree_inv c t f :
  switchFree toSource (Tree c t f) = true ->
  renderDecisionTreeWithSwitch toSource (Tree c t f) = None
  /\ match t with Some t' => switchFree toSource t' = true | None => True end
  /\ match f with Some f' => switchFree toSource f' = true | None => True end.
Proof.
  cbn [switchFree].
  destruct (renderDecisionTreeWithSwitch toSource (Tree c t f));
    [discriminate|].
  intros H. apply andb_true_iff in H. destruct H as [Ht Hf].
  split; [reflexivity|].
  destruct t, f; auto.
Qed.

Lemma execStatement_elseClause statements :
  execStatement truth matches (elseClause statements)
  = execStatements truth matches statements.
Proof.
  unfold elseClause.
  destruct statements as [|s [|s' rest]]; try reflexivity.
  destruct (isIfStatement s); [|reflexivity].
  rewrite execStatements_single. reflexivity.
Qed.

Lemma if_else_runs_selected :
  forall tree,
    switchFree toSource tree = true ->
    execStatements truth matches (renderDecisionTree toSource tree)
    = (selected truth tree, Completed).
Proof.
  unfold selected.
  induction tree as [c | c t IHt | c f IHf | c t f IHt IHf]
    using DecisionTree_shape_ind; intros H;
    apply switchFree_inv in H; destruct H as [Hs [Ht Hf]].
  - rewrite renderDecisionTree_unfold, Hs. reflexivity.
  - rewrite renderDecisionTree_unfold, Hs.
    rewrite execStatements_single, execStatement_if, execStatement_block.
    simpl selectLeaf. destruct (evalTest truth c); [|reflexivity].
    apply IHt. assumption.
  - rewrite renderDecisionTree_unfold, Hs.
    rewrite execStatements_single, execStatement_if, execStatement_block,
      evalTest_not.
    simpl selectLeaf. destruct (evalTest truth c); [reflexivity|].
    apply IHf. assumption.
  - rewrite (renderDecisionTree_both toSource c t f Hs).
    rewrite execStatements_single, execStatement_if, execStatement_block,
      execStatement_elseClause.
    simpl selectLeaf. destruct (evalTest truth c).
    + apply IHt. assumption.
    + apply IHf. assumption.
Qed.

End RunningIfElse.

(** ** What a synthesized switch runs *)

Section RunningSwitch.

Variable toSource : Expression -> string.
Variable truth : Expression -> bool.
Variable matches : Expression -> Expression -> bool.
Variable base : Expression.

(** An equality comparison with the base is true exactly when the switch on
    the base matches the value compared with. *)
Hypothesis truth_left :
  forall operator lhs rhs,
    isEqualityOperator operator = true ->
    areNodesEqual toSource lhs base = true ->
    truth (BinaryExpression operator lhs rhs) = matches base rhs.
Hypothesis truth_right :
  forall operator lhs rhs,
    isEqualityOperator operator = true ->
    areNodesEqual toSource lhs base = false ->
    areNodesEqual toSource rhs base = true ->
    truth (BinaryExpression operator lhs rhs) = matches base lhs.

Lemma evalTest_comparison cond :
  comparesOnly toSource base cond = true ->
  evalTest truth cond
  = existsb (matches base) (extractComparisonValues toSource cond base)
  /\ extractComparisonValues toSource cond base <> [].
Proof.
  induction cond as [| op l IHl r IHr | op l _ r _ | | | | | |];
    try discriminate.
  - destruct op; try discriminate. simpl. intros H.
    apply andb_true_iff in H. destruct H as [Hl Hr].
    destruct (IHl Hl) as [El Nl]. destruct (IHr Hr) as [Er Nr].
    rewrite El, Er, existsb_app. split; [reflexivity|].
    intros H. apply app_eq_nil in H. tauto.
  - simpl. intros H. apply andb_true_iff in H. destruct H as [Hop H].
    rewrite Hop.
    destruct (areNodesEqual toSource l base) eqn:El.
    + simpl. rewrite orb_false_r. split; [|discriminate].
      apply truth_left; assumption.
    + simpl in H. rewrite H. simpl. rewrite orb_false_r.
      split; [|discriminate]. apply truth_right; assumption.
Qed.

Lemma andThen_nothing (o : Outcome) : andThen ([], Completed) o = o.
Proof. destruct o. reflexivity. Qed.

Lemma execCases_labels exec values rest :
  execCases exec (fallthroughLabels values ++ rest) = execCases exec rest.
Proof.
  induction values as [|x values IH]; [reflexivity|].
  simpl. rewrite andThen_nothing. exact IH.
Qed.

Lemma enterCases_match_group exec values value body rest :
  enterCases exec (caseMatches matches base)
    (fallthroughLabels values ++ switchCase (Some value) body :: rest)
  = if existsb (matches base) (values ++ [value])
    then Some (andThen (execSequence exec body) (execCases exec rest))
    else enterCases exec (caseMatches matches base) rest.
Proof.
  induction values as [|x values IH].
  - simpl. rewrite orb_false_r. reflexivity.
  - cbn [fallthroughLabels map app enterCases existsb caseMatches].
    fold (fallthroughLabels values).
    destruct (matches base x); [|exact IH].
    cbn [orb]. f_equal.
    change (execCases exec
              (switchCase (Some x) []
               :: fallthroughLabels values
                  ++ switchCase (Some value) body :: rest))
      with (andThen ([], Completed)
              (execCases exec
                 (fallthroughLabels values
                  ++ switchCase (Some value) body :: rest))).
    rewrite andThen_nothing, execCases_labels. reflexivity.
Qed.

Lemma enterCases_default_group exec values value body rest :
  enterCases exec isDefaultCase
    (fallthroughLabels values ++ switchCase (Some value) body :: rest)
  = enterCases exec isDefaultCase rest.
Proof.
  induction values as [|x values IH]; [reflexivity | exact IH].
Qed.

Lemma collectSwitchCase_group c t f values value :
  hasBranch (Tree c t f) = true ->
  extractComparisonValues toSource c base = values ++ [value] ->
  collectSwitchCase toSource (Tree c t f) base
  = fallthroughLabels values
    ++ switchCase (Some value)
         match t with
         | Some t' => [ExpressionStatement (condition t'); BreakStatement]
         | None => []
         end
       :: falseBranchCases toSource f base.
Proof.
  intros Hb Hv. rewrite collectSwitchCase_unfold by assumption.
  rewrite Hv, splitLast_snoc. unfold fallthroughLabels.
  destruct t; reflexivity.
Qed.

Lemma execStatement_switch cases :
  execStatement truth matches (SwitchStatement base cases)
  = endSwitch
      match enterCases (execStatement truth matches)
              (caseMatches matches base) cases with
      | Some outcome => Some outcome
      | None => enterCases (execStatement truth matches) isDefaultCase cases
      end.
Proof. reflexivity. Qed.

(** A node whose condition compares the base: when a value matches, the
    switch runs from the consequent of the node's last case; when none does,
    the switch goes on with the cases of the false branch. *)
Lemma execStatement_switch_node c t f :
  hasBranch (Tree c t f) = true ->
  comparesOnly toSource base c = true ->
  execStatement truth matches
    (SwitchStatement base (collectSwitchCase toSource (Tree c t f) base))
  = if evalTest truth c
    then
      endSwitch
        (Some
           (andThen
              (execStatements truth matches
                 match t with
                 | Some t' =>
                     [ExpressionStatement (condition t'); BreakStatement]
                 | None => []
                 end)
              (execCases (execStatement truth matches)
                 (falseBranchCases toSource f base))))
    else
      execStatement truth matches
        (SwitchStatement base (falseBranchCases toSource f base)).
Proof.
  intros Hb Hc. destruct (evalTest_comparison c Hc) as [Et Hn].
  destruct (exists_last Hn) as [values [value Hv]].
  rewrite (collectSwitchCase_group c t f values value Hb Hv).
  rewrite !execStatement_switch.
  rewrite enterCases_match_group, enterCases_default_group.
  rewrite Et, Hv.
  destruct (existsb (matches base) (values ++ [value])); reflexivity.
Qed.

Lemma selectLeaf_leaf t :
  hasBranch t = false -> selectLeaf truth t = Some (condition t).
Proof.
  destruct t as [c [t'|] [f'|]]; simpl; intros H; try discriminate.
  reflexivity.
Qed.

Lemma selected_node c t f :
  hasBranch (Tree c t f) = true ->
  selected truth (Tree c t f)
  = if evalTest truth c
    then match t with Some t' => selected truth t' | None => [] end
    else match f with Some f' => selected truth f' | None => [] end.
Proof.
  unfold selected. destruct t, f; simpl; intros H; try discriminate;
    destruct (evalTest truth c); reflexivity.
Qed.

Lemma selected_leaf t :
  hasBranch t = false -> selected truth t = [condition t].
Proof.
  intros H. unfold selected. rewrite (selectLeaf_leaf t H). reflexivity.
Qed.

Lemma execStatement_switch_false_leaf f :
  hasBranch f = false ->
  execStatement truth matches
    (SwitchStatement base (falseBranchCases toSource (Some f) base))
  = ([condition f], Completed).
Proof.
  intros H. simpl. rewrite H. reflexivity.
Qed.

(** On a case ladder the switch runs the leaf the tree selects. *)
Lemma switch_runs_selected :
  forall tree,
    caseLadder toSource base tree = true ->
    execStatement truth matches
      (SwitchStatement base (collectSwitchCase toSource tree base))
    = (selected truth tree, Completed).
Proof.
  induction tree as [c | c t IHt | c f IHf | c t f IHt IHf]
    using DecisionTree_shape_ind; cbn [caseLadder]; intros H;
    try discriminate.
  - rewrite andb_true_r in H. apply andb_true_iff in H.
    destruct H as [Hc Ht]. apply negb_true_iff in Ht.
    rewrite execStatement_switch_node by (reflexivity || assumption).
    rewrite selected_node by reflexivity.
    rewrite (selected_leaf t Ht).
    destruct (evalTest truth c); reflexivity.
  - apply andb_true_iff in H. destruct H as [H Hf].
    apply andb_true_iff in H. destruct H as [Hc Ht].
    apply negb_true_iff in Ht.
    rewrite execStatement_switch_node by (reflexivity || assumption).
    rewrite selected_node by reflexivity.
    rewrite (selected_leaf t Ht).
    destruct (evalTest truth c); [reflexivity|].
    destruct (hasBranch f) eqn:Ef.
    + cbn [falseBranchCases]. rewrite Ef. apply IHf. assumption.
    + rewrite (execStatement_switch_false_leaf f Ef).
      rewrite (selected_leaf f Ef). reflexivity.
Qed.

(** A node without a true branch gets cases without a consequent: when its
    condition holds, the switch runs on into the cases of the false branch. *)
Lemma switch_falls_into_false_branch c f :
  comparesOnly toSource base c = true ->
  evalTest truth c = true ->
  selected truth (Tree c None (Some f)) = []
  /\ execStatement truth matches
       (SwitchStatement base
          (collectSwitchCase toSource (Tree c None (Some f)) base))
     = endSwitch
         (Some (execCases (execStatement truth matches)
                  (falseBranchCases toSource (Some f) base))).
Proof.
  intros Hc E. split.
  - rewrite selected_node by reflexivity. rewrite E. reflexivity.
  - rewrite execStatement_switch_node by (reflexivity || assumption).
    rewrite E. unfold execStatements. cbn [execSequence].
    rewrite andThen_nothing. reflexivity.
Qed.

(** The same, with the next node of the ladder in sight: the consequent run
    is the one of the false branch. *)
Lemma switch_runs_next_consequent c c' t' f' :
  comparesOnly toSource base c = true ->
  evalTest truth c = true ->
  comparesOnly toSource base c' = true ->
  execStatement truth matches
    (SwitchStatement base
       (collectSwitchCase toSource
          (Tree c None (Some (Tree c' (Some t') f'))) base))
  = ([condition t'], Completed).
Proof.
  intros Hc E Hc'.
  destruct (switch_falls_into_false_branch c (Tree c' (Some t') f') Hc E)
    as [_ ->].
  destruct (evalTest_comparison c' Hc') as [_ Hn].
  destruct (exists_last Hn) as [values [value Hv]].
  cbn [falseBranchCases hasBranch].
  rewrite (collectSwitchCase_group c' (Some t') f' values value
             eq_refl Hv).
  rewrite execCases_labels. reflexivity.
Qed.

End RunningSwitch.

(** ** Bases, values and cases *)

Section BasesAndCases.

Variable toSource : Expression -> string.

Lemma areNodesEqual_refl node : areNodesEqual toSource node node = true.
Proof. apply String.eqb_refl. Qed.

Lemma areNodesEqual_sym a b :
  areNodesEqual toSource a b = areNodesEqual toSource b a.
Proof. apply String.eqb_sym. Qed.

Lemma areNodesEqual_trans a b c :
  areNodesEqual toSource a b = true ->
  areNodesEqual toSource b c = true ->
  areNodesEqual toSource a c = true.
Proof.
  unfold areNodesEqual. rewrite !String.eqb_eq. congruence.
Qed.

Lemma firstCommonBase_In leftBases rightBases b :
  firstCommonBase toSource leftBases rightBases = Some b ->
  In b leftBases.
Proof.
  intros H. apply find_some in H. tauto.
Qed.

Lemma extractComparisonBases_or_In lhs rhs b :
  In b (extractComparisonBases toSource (LogicalExpression OR lhs rhs)) ->
  In b (extractComparisonBases toSource lhs).
Proof.
  rewrite extractComparisonBases_or.
  destruct (extractComparisonBases toSource lhs) as [|x xs] eqn:El;
    [intros []|].
  destruct (extractComparisonBases toSource rhs) as [|y ys] eqn:Er;
    [intros []|].
  destruct (firstCommonBase toSource (x :: xs) (y :: ys)) as [z|] eqn:E;
    [|intros []].
  intros [<- | []]. eapply firstCommonBase_In; eassumption.
Qed.

Lemma extractComparisonBases_sound :
  forall cond b,
    In b (extractComparisonBases toSource cond) ->
    isComparisonBase b = true /\ In b (equalityOperands cond).
Proof.
  induction cond as [| op l IHl r IHr | op l _ r _ | | | | | |];
    intros b; try (intros []).
  - destruct op; try (intros []).
    intros H. apply extractComparisonBases_or_In in H.
    destruct (IHl _ H) as [Hb Hin]. split; [assumption|].
    simpl. apply in_or_app. left. assumption.
  - cbn [extractComparisonBases equalityOperands].
    destruct (isEqualityOperator op); [|intros []].
    intros H. apply filter_In in H. tauto.
Qed.

Lemma extractComparisonBases_length cond :
  (List.length (extractComparisonBases toSource cond) <= 2)%nat.
Proof.
  destruct cond as [| op l r | op l r | | | | | |]; simpl; try lia.
  - destruct op; simpl; try lia.
    destruct ((0 <? Z.of_nat (List.length (extractComparisonBases toSource l)))
              && (0 <? Z.of_nat
                         (List.length (extractComparisonBases toSource r))));
      simpl; [|lia].
    destruct (find _ _); simpl; lia.
  - destruct (isEqualityOperator op); simpl; [|lia].
    destruct (isComparisonBase l), (isComparisonBase r); simpl; lia.
Qed.

Lemma extractComparisonValues_sound :
  forall cond base v,
    In v (extractComparisonValues toSource cond base) ->
    In v (equalityOperands cond).
Proof.
  induction cond as [| op l IHl r IHr | op l _ r _ | | | | | |];
    intros base v; try (intros []).
  - destruct op; try (intros []).
    simpl. intros H. apply in_app_or in H. apply in_or_app.
    destruct H; [left; eapply IHl | right; eapply IHr]; eassumption.
  - simpl. destruct (isEqualityOperator op); [|intros []].
    destruct (areNodesEqual toSource l base).
    + intros [<- | []]. right. left. reflexivity.
    + destruct (areNodesEqual toSource r base); [|intros []].
      intros [<- | []]. left. reflexivity.
Qed.

(** A condition that tests the base compares it with a value. *)
Lemma testsBase_values :
  forall cond base,
    testsBase toSource base cond = true ->
    extractComparisonValues toSource cond base <> [].
Proof.
  unfold testsBase.
  induction cond as [| op l IHl r _ | op l _ r _ | | | | | |];
    intros base; try discriminate.
  - destruct op; try discriminate.
    intros H. apply existsb_exists in H. destruct H as [b [Hin Hb]].
    apply extractComparisonBases_or_In in Hin.
    assert (Hl : existsb (fun node => areNodesEqual toSource node base)
                   (extractComparisonBases toSource l) = true).
    { apply existsb_exists. exists b. auto. }
    specialize (IHl base Hl). simpl. intros E.
    apply app_eq_nil in E. tauto.
  - cbn [extractComparisonBases extractComparisonValues].
    destruct (isEqualityOperator op); [|discriminate].
    intros H. apply existsb_exists in H. destruct H as [b [Hin Hb]].
    apply filter_In in Hin. destruct Hin as [[<- | [<- | []]] _].
    + rewrite Hb. discriminate.
    + rewrite Hb. destruct (areNodesEqual toSource l base); discriminate.
Qed.

Lemma qualifies_root tree base :
  qualifies toSource tree base = true ->
  hasBranch tree = true /\ testsBase toSource base (condition tree) = true.
Proof.
  unfold qualifies, SWITCH_THRESHOLD. rewrite Z.leb_le.
  destruct tree as [c t f]. cbn [condition].
  destruct (hasBranch (Tree c t f)) eqn:Hb.
  - rewrite count_unfold by assumption.
    destruct (testsBase toSource base c); simpl;
      [intros _; split; reflexivity | lia].
  - destruct t, f; try discriminate. simpl. lia.
Qed.

Lemma validChain_height base :
  forall tree n, validChain toSource base tree n -> (n <= height tree)%nat.
Proof.
  intros tree n H. induction H as [c | c t f n _ _ IH | c t f n _ _ IH].
  - simpl. lia.
  - destruct f; simpl; lia.
  - destruct t; simpl; lia.
Qed.

(** The default case comes last, and every consequent is empty or one
    expression statement and a break. *)
Lemma collectSwitchCase_shape base :
  forall tree,
    forallb hasTest (removelast (collectSwitchCase toSource tree base)) = true
    /\ forallb (fun c => isCaseBody (consequentOf c))
         (collectSwitchCase toSource tree base) = true.
Proof.
  assert (Hlabels : forall values,
             forallb hasTest
               (map (fun v => switchCase (Some v) []) values) = true
             /\ forallb (fun c => isCaseBody (consequentOf c))
                  (map (fun v => switchCase (Some v) []) values) = true).
  { induction values as [|x values [IH1 IH2]]; simpl; auto. }
  assert (Hremove : forall (front back : list SwitchCase),
             forallb hasTest front = true ->
             forallb hasTest (removelast back) = true ->
             forallb hasTest (removelast (front ++ back)) = true).
  { intros front back Hf Hb. destruct back as [|b back].
    - rewrite app_nil_r. clear Hb.
      induction front as [|x [|y front] IH]; simpl in *; auto.
      apply andb_true_iff in Hf. destruct Hf as [Hx Hf].
      rewrite Hx. simpl. apply IH. assumption.
    - rewrite removelast_app by discriminate.
      rewrite forallb_app, Hf, Hb. reflexivity. }
  assert (Hnode : forall c t f,
             hasBranch (Tree c t f) = true ->
             forallb hasTest (removelast (falseBranchCases toSource f base))
             = true
             /\ forallb (fun c => isCaseBody (consequentOf c))
                  (falseBranchCases toSource f base) = true ->
             forallb hasTest
               (removelast (collectSwitchCase toSource (Tree c t f) base))
             = true
             /\ forallb (fun c => isCaseBody (consequentOf c))
                  (collectSwitchCase toSource (Tree c t f) base) = true).
  { intros c t f Hb [Hf1 Hf2].
    rewrite collectSwitchCase_unfold by assumption.
    destruct (splitLast _) as [lastValue others].
    destruct (Hlabels others) as [Hl1 Hl2].
    split.
    - apply Hremove; [assumption|].
      apply Hremove; [|assumption].
      destruct lastValue, t; reflexivity.
    - rewrite !forallb_app, Hl2, Hf2.
      destruct lastValue, t; reflexivity. }
  assert (Hfalse : forall f,
             (forallb hasTest (removelast (collectSwitchCase toSource f base))
              = true
              /\ forallb (fun c => isCaseBody (consequentOf c))
                   (collectSwitchCase toSource f base) = true) ->
             forallb hasTest
               (removelast (falseBranchCases toSource (Some f) base)) = true
             /\ forallb (fun c => isCaseBody (consequentOf c))
                  (falseBranchCases toSource (Some f) base) = true).
  { intros f IH. simpl. destruct (hasBranch f); [assumption|].
    split; reflexivity. }
  induction tree as [c | c t IHt | c f IHf | c t f IHt IHf]
    using DecisionTree_shape_ind.
  - split; reflexivity.
  - apply Hnode; [reflexivity|]. split; reflexivity.
  - apply Hnode; [reflexivity|]. apply Hfalse. assumption.
  - apply Hnode; [reflexivity|]. apply Hfalse. assumption.
Qed.

(** Only the source text of the base matters. *)
Lemma same_source_same_cases base base' :
  toSource base = toSource base' ->
  (forall cond,
     testsBase toSource base cond = testsBase toSource base' cond)
  /\ (forall cond,
        extractComparisonValues toSource cond base
        = extractComparisonValues toSource cond base')
  /\ (forall tree count,
        countBaseVariableUsedInAllBranches toSource base tree count
        = countBaseVariableUsedInAllBranches toSource base' tree count)
  /\ (forall tree,
        collectSwitchCase toSource tree base
        = collectSwitchCase toSource tree base').
Proof.
  intros E.
  assert (Ht : forall cond,
             testsBase toSource base cond = testsBase toSource base' cond).
  { intros cond. unfold testsBase, areNodesEqual. rewrite E. reflexivity. }
  assert (Hv : forall cond,
             extractComparisonValues toSource cond base
             = extractComparisonValues toSource cond base').
  { induction cond as [| op l IHl r IHr | op l _ r _ | | | | | |];
      try reflexivity.
    - destruct op; try reflexivity. simpl. rewrite IHl, IHr. reflexivity.
    - simpl. unfold areNodesEqual. rewrite E. reflexivity. }
  split; [exact Ht|]. split; [exact Hv|]. split.
  - induction tree as [c | c t IHt | c f IHf | c t f IHt IHf]
      using DecisionTree_shape_ind; intros count.
    + reflexivity.
    + rewrite !count_unfold by reflexivity. rewrite Ht, IHt. reflexivity.
    + rewrite !count_unfold by reflexivity. rewrite Ht, IHf. reflexivity.
    + rewrite !count_unfold by reflexivity. rewrite Ht, IHt, IHf.
      reflexivity.
  - induction tree as [c | c t IHt | c f IHf | c t f IHt IHf]
      using DecisionTree_shape_ind.
    + reflexivity.
    + rewrite !collectSwitchCase_unfold by reflexivity. rewrite Hv.
      reflexivity.
    + rewrite !collectSwitchCase_unfold by reflexivity. rewrite Hv.
      simpl. rewrite IHf. reflexivity.
    + rewrite !collectSwitchCase_unfold by reflexivity. rewrite Hv.
      simpl. rewrite IHf. reflexivity.
Qed.

End BasesAndCases.

(** ** The shape of the renderings *)

Lemma early_return_shape :
  forall tree,
    forallb elseFree (renderDecisionTreeWithEarlyReturn tree) = true
    /\ forallb blockBodied (renderDecisionTreeWithEarlyReturn tree) = true
    /\ renderDecisionTreeWithEarlyReturn tree <> [].
Proof.
  induction tree as [c | c t [IH1 [IH2 _]] | c f [IH1 [IH2 _]]
                     | c t f [IHt1 [IHt2 _]] [IHf1 [IHf2 _]]]
    using DecisionTree_shape_ind;
    cbn [renderDecisionTreeWithEarlyReturn forallb elseFree blockBodied
         isBlockStatement andb];
    rewrite ?IH1, ?IH2, ?IHt1, ?IHt2, ?IHf1, ?IHf2;
    repeat split; discriminate.
Qed.

Lemma early_return_leaves :
  forall tree,
    flat_map simpleStatements (renderDecisionTreeWithEarlyReturn tree)
    = map (fun action => ReturnStatement (Some action)) (leaves tree).
Proof.
  induction tree as [c | c t IHt | c f IHf | c t f IHt IHf]
    using DecisionTree_shape_ind;
    cbn [renderDecisionTreeWithEarlyReturn flat_map simpleStatements leaves].
  - reflexivity.
  - rewrite IHt, !app_nil_r. reflexivity.
  - rewrite IHf, !app_nil_r. reflexivity.
  - rewrite IHt, IHf, app_nil_r, map_app. reflexivity.
Qed.

Lemma simpleStatements_elseClause statements :
  simpleStatements (elseClause statements)
  = flat_map simpleStatements statements.
Proof.
  unfold elseClause. destruct statements as [|s [|s' rest]]; try reflexivity.
  destruct (isIfStatement s); [|reflexivity].
  simpl. rewrite app_nil_r. reflexivity.
Qed.

Lemma isCaseBody_blockBodied consequent :
  isCaseBody consequent = true -> forallb blockBodied consequent = true.
Proof.
  destruct consequent as [|[] [|[] [|]]]; try discriminate; reflexivity.
Qed.

Lemma blockBodied_elseClause statements :
  forallb blockBodied statements = true ->
  (isIfStatement (elseClause statements)
   || isBlockStatement (elseClause statements)) = true
  /\ blockBodied (elseClause statements) = true.
Proof.
  unfold elseClause. destruct statements as [|s [|s' rest]]; intros H;
    try (split; [reflexivity | exact H]).
  destruct (isIfStatement s) eqn:E.
  - rewrite E. split; [reflexivity|].
    simpl in H. rewrite andb_true_r in H. exact H.
  - split; [reflexivity | exact H].
Qed.

Lemma leaves_nonempty : forall tree, leaves tree <> [].
Proof.
  induction tree as [c | c t IHt | c f IHf | c t f IHt IHf]
    using DecisionTree_shape_ind; simpl.
  - discriminate.
  - rewrite app_nil_r. assumption.
  - assumption.
  - intros H. apply app_eq_nil in H. tauto.
Qed.

Lemma leavesPlain_leaves :
  forall tree,
    leavesPlain tree = true ->
    Forall (fun action => isTriggerExpression action = false) (leaves tree).
Proof.
  induction tree as [c | c t IHt | c f IHf | c t f IHt IHf]
    using DecisionTree_shape_ind; simpl; intros H.
  - constructor; [|constructor]. apply negb_true_iff. assumption.
  - rewrite andb_true_r in H. rewrite app_nil_r. auto.
  - auto.
  - apply andb_true_iff in H. destruct H as [Ht Hf].
    apply Forall_app. auto.
Qed.

Lemma hasBranch_makeDecisionTree node :
  hasBranch (makeDecisionTree node) = isTriggerExpression node.
Proof.
  destruct node as [| op | | | | | | |]; try reflexivity.
  destruct op; reflexivity.
Qed.

Section Shapes.

Variable toSource : Expression -> string.

Lemma if_else_leaves :
  forall tree,
    switchFree toSource tree = true ->
    flat_map simpleStatements (renderDecisionTree toSource tree)
    = map ExpressionStatement (leaves tree).
Proof.
  induction tree as [c | c t IHt | c f IHf | c t f IHt IHf]
    using DecisionTree_shape_ind; intros H;
    apply switchFree_inv in H; destruct H as [Hs [Ht Hf]].
  - rewrite renderDecisionTree_unfold, Hs. reflexivity.
  - rewrite renderDecisionTree_unfold, Hs.
    cbn [flat_map simpleStatements leaves].
    rewrite (IHt Ht), !app_nil_r. reflexivity.
  - rewrite renderDecisionTree_unfold, Hs.
    cbn [flat_map simpleStatements leaves].
    rewrite (IHf Hf), !app_nil_r. reflexivity.
  - rewrite (renderDecisionTree_both toSource c t f Hs).
    cbn [flat_map simpleStatements leaves].
    rewrite simpleStatements_elseClause, (IHt Ht), (IHf Hf), app_nil_r,
      map_app.
    reflexivity.
Qed.

Lemma switch_blockBodied tree statement :
  renderDecisionTreeWithSwitch toSource tree = Some statement ->
  forallb blockBodied [statement] = true.
Proof.
  intros E. apply renderDecisionTreeWithSwitch_Some in E.
  destruct E as [base [_ [_ ->]]].
  cbn [forallb blockBodied]. rewrite andb_true_r.
  destruct (collectSwitchCase_shape toSource base tree) as [_ Hb].
  rewrite forallb_forall in *. intros x Hx.
  apply isCaseBody_blockBodied. apply Hb. assumption.
Qed.

Lemma if_else_blockBodied :
  forall tree,
    forallb blockBodied (renderDecisionTree toSource tree) = true.
Proof.
  induction tree as [c | c t IHt | c f IHf | c t f IHt IHf]
    using DecisionTree_shape_ind.
  - rewrite renderDecisionTree_unfold.
    destruct (renderDecisionTreeWithSwitch toSource (Tree c None None))
      eqn:E; [eapply switch_blockBodied; eassumption | reflexivity].
  - rewrite renderDecisionTree_unfold.
    destruct (renderDecisionTreeWithSwitch toSource (Tree c (Some t) None))
      eqn:E; [eapply switch_blockBodied; eassumption|].
    cbn [forallb blockBodied isBlockStatement andb]. rewrite IHt.
    reflexivity.
  - rewrite renderDecisionTree_unfold.
    destruct (renderDecisionTreeWithSwitch toSource (Tree c None (Some f)))
      eqn:E; [eapply switch_blockBodied; eassumption|].
    cbn [forallb blockBodied isBlockStatement andb]. rewrite IHf.
    reflexivity.
  - destruct (renderDecisionTreeWithSwitch toSource
                (Tree c (Some t) (Some f))) eqn:E.
    + rewrite renderDecisionTree_unfold, E.
      eapply switch_blockBodied; eassumption.
    + rewrite (renderDecisionTree_both toSource c t f E).
      destruct (blockBodied_elseClause _ IHf) as [H1 H2].
      cbn [forallb blockBodied isBlockStatement andb].
      rewrite IHt, H1, H2. reflexivity.
Qed.

End Shapes.

(** ** Statements the transformation leaves alone *)

Section Untargeted.

Variable rewrite : Statement -> option (list Statement).
Hypothesis rewrite_targets : forall s, isTarget s = false -> rewrite s = None.

Lemma containsTarget_isTarget s :
  containsTarget s = false -> isTarget s = false.
Proof.
  destruct s; cbn [containsTarget]; intros H; apply orb_false_iff in H;
    tauto.
Qed.

Lemma visitStatement_untargeted :
  forall s, containsTarget s = false -> visitStatement rewrite s = s.
Proof.
  fix IH 1.
  intros [test consequent alternate | body | discriminant cases
          | argument | expression |] H; try reflexivity.
  - cbn [containsTarget isTarget orb] in H.
    apply orb_false_iff in H. destruct H as [Hc Ha].
    cbn [visitStatement].
    rewrite (rewrite_targets _ (containsTarget_isTarget _ Hc)).
    rewrite (IH _ Hc).
    destruct alternate as [alternate|]; [|reflexivity].
    cbn [option_map].
    rewrite (rewrite_targets _ (containsTarget_isTarget _ Ha)).
    rewrite (IH _ Ha). reflexivity.
  - cbn [containsTarget isTarget orb] in H. cbn [visitStatement]. f_equal.
    induction body as [|x body IHbody]; [reflexivity|].
    cbn [existsb] in H. apply orb_false_iff in H. destruct H as [Hx Hb].
    cbn [flat_map].
    rewrite (rewrite_targets _ (containsTarget_isTarget _ Hx)).
    rewrite (IH _ Hx), (IHbody Hb). reflexivity.
  - cbn [containsTarget isTarget orb] in H. cbn [visitStatement]. f_equal.
    induction cases as [|[test consequent] cases IHcases]; [reflexivity|].
    cbn [existsb consequentOf] in H. apply orb_false_iff in H.
    destruct H as [Hx Hb].
    cbn [map]. rewrite (IHcases Hb). f_equal. f_equal.
    clear IHcases Hb.
    induction consequent as [|x consequent IHconsequent]; [reflexivity|].
    cbn [existsb] in Hx. apply orb_false_iff in Hx. destruct Hx as [Hx Hb].
    cbn [flat_map].
    rewrite (rewrite_targets _ (containsTarget_isTarget _ Hx)).
    rewrite (IH _ Hx), (IHconsequent Hb). reflexivity.
Qed.

Lemma visitProgram_untargeted body :
  existsb containsTarget body = false -> visitProgram rewrite body = body.
Proof.
  induction body as [|x body IH]; [reflexivity|].
  cbn [existsb]. intros H. apply orb_false_iff in H. destruct H as [Hx Hb].
  unfold visitProgram in *. cbn [flat_map].
  rewrite (rewrite_targets _ (containsTarget_isTarget _ Hx)).
  rewrite (visitStatement_untargeted _ Hx), (IH Hb). reflexivity.
Qed.

End Untargeted.

(** * Further theorems *)

(** ** Switch synthesis *)

(** X1. The discriminant of a synthesized switch is an operand of an equality
    comparison of the root condition, and its own node is neither a Literal
    nor a CallExpression.  isComparisonBase looks at the kind of that node
    only: a call below it goes into the discriminant, as in
    -f()==1?p():-f()==2?q():-f()==3?r():s(), which gives switch (-f()); and
    the identifier null that the builder makes for ?? can be the
    discriminant, as in a ?? (b ?? (c ?? f())), which gives switch (null). *)
Theorem switch_discriminant_is_base :
  (forall toSource tree discriminant cases,
     renderDecisionTreeWithSwitch toSource tree
     = Some (SwitchStatement discriminant cases) ->
     isLiteral discriminant = false
     /\ isCallExpression discriminant = false
     /\ In discriminant (equalityOperands (condition tree)))
  /\ (forall toSource,
        renderDecisionTree toSource (makeDecisionTree negatedCallChain)
        = [SwitchStatement (UnaryExpression "-" (call "f"))
             [switchCase (Some (Literal "1"))
                [ExpressionStatement (call "p"); BreakStatement];
              switchCase (Some (Literal "2"))
                [ExpressionStatement (call "q"); BreakStatement];
              switchCase (Some (Literal "3"))
                [ExpressionStatement (call "r"); BreakStatement];
              switchCase None
                [ExpressionStatement (call "s"); BreakStatement]]])
  /\ renderDecisionTree printExpression (makeDecisionTree nullishChain)
     = [SwitchStatement (Identifier "null")
          [switchCase (Some (Identifier "a"))
             [ExpressionStatement
                (BinaryExpression "==" (Identifier "b") (Identifier "null"));
              BreakStatement]]].
Proof.
  split; [|split].
  - intros toSource tree discriminant cases H.
    apply renderDecisionTreeWithSwitch_Some in H.
    destruct H as [base [Hin [_ Heq]]]. injection Heq as -> _.
    destruct (extractComparisonBases_sound toSource _ _ Hin) as [Hb Ho].
    unfold isComparisonBase in Hb.
    destruct (isLiteral base); [discriminate|].
    destruct (isCallExpression base); [discriminate|]. auto.
  - run_renderer.
  - vm_compute. reflexivity.
Qed.

Lemma switch_discriminant_is_base_witness :
  isLiteral (UnaryExpression "-" (call "f")) = false
  /\ isCallExpression (UnaryExpression "-" (call "f")) = false
  /\ In (UnaryExpression "-" (call "f"))
        (equalityOperands (condition (makeDecisionTree negatedCallChain))).
Proof.
  apply (proj1 switch_discriminant_is_base printExpression
           (makeDecisionTree negatedCallChain)
           (UnaryExpression "-" (call "f"))
           (collectSwitchCase printExpression
              (makeDecisionTree negatedCallChain)
              (UnaryExpression "-" (call "f")))).
  vm_compute. reflexivity.
Defined.

(** X2. extractComparisonBases gives at most two candidates, and each is an
    operand of an equality comparison of the condition, reached through OR
    only. *)
Theorem extractComparisonBases_bounds :
  forall toSource cond,
    (List.length (extractComparisonBases toSource cond) <= 2)%nat
    /\ incl (extractComparisonBases toSource cond) (equalityOperands cond).
Proof.
  intros toSource cond. split.
  - apply extractComparisonBases_length.
  - intros b Hin.
    apply (extractComparisonBases_sound toSource cond b Hin).
Qed.

(** X3. A condition that tests a base (the base is among its comparison
    bases) always yields at least one comparison value for it, and every
    comparison value is an operand of an equality comparison of the
    condition: a node that counts towards the threshold gets a case. *)
Theorem tested_base_has_values :
  forall toSource base cond,
    testsBase toSource base cond = true ->
    extractComparisonValues toSource cond base <> []
    /\ incl (extractComparisonValues toSource cond base)
            (equalityOperands cond).
Proof.
  intros toSource base cond H. split.
  - apply testsBase_values. assumption.
  - intros v Hin.
    apply (extractComparisonValues_sound toSource cond base v Hin).
Qed.

Lemma tested_base_has_values_witness :
  extractComparisonValues printExpression eitherXY (Identifier "a") <> []
  /\ incl (extractComparisonValues printExpression eitherXY (Identifier "a"))
          (equalityOperands eitherXY).
Proof.
  apply (tested_base_has_values printExpression (Identifier "a") eitherXY).
  vm_compute. reflexivity.
Defined.

(** X4. A synthesized switch is never empty, and its first case has a test:
    it does not start with the default case. *)
Theorem synthesized_switch_first_case :
  forall toSource tree discriminant cases,
    renderDecisionTreeWithSwitch toSource tree
    = Some (SwitchStatement discriminant cases) ->
    exists value consequent rest,
      cases = switchCase (Some value) consequent :: rest.
Proof.
  intros toSource tree discriminant cases H.
  apply renderDecisionTreeWithSwitch_Some in H.
  destruct H as [base [_ [Hq Heq]]]. injection Heq as -> ->.
  destruct (qualifies_root toSource tree base Hq) as [Hb Ht].
  destruct tree as [c t f]. cbn [condition] in Ht.
  pose proof (testsBase_values toSource c base Ht) as Hn.
  destruct (exists_last Hn) as [values [value Hv]].
  rewrite collectSwitchCase_unfold by assumption.
  rewrite Hv, splitLast_snoc.
  destruct values as [|x values].
  - destruct t; simpl; eexists; eexists; eexists; reflexivity.
  - simpl. eexists; eexists; eexists; reflexivity.
Qed.

Lemma synthesized_switch_first_case_witness :
  exists value consequent rest,
    collectSwitchCase printExpression (makeDecisionTree fallthroughChain)
      (Identifier "a")
    = switchCase (Some value) consequent :: rest.
Proof.
  apply (synthesized_switch_first_case printExpression
           (makeDecisionTree fallthroughChain) (Identifier "a")).
  vm_compute. reflexivity.
Defined.

(** X5. In the cases collectSwitchCase gives for any tree and base, only the
    last case can be the default case, and every consequent is empty or one
    expression statement followed by a break. *)
Theorem switch_cases_shape :
  forall toSource tree base,
    forallb hasTest (removelast (collectSwitchCase toSource tree base)) = true
    /\ forallb (fun c => isCaseBody (consequentOf c))
         (collectSwitchCase toSource tree base) = true.
Proof.
  intros toSource tree base. apply collectSwitchCase_shape.
Qed.

(** X6. The count of a base, started at 0, lies between the sentinel -1 and
    the height of the tree, so no switch is synthesized for a tree of height
    less than SWITCH_THRESHOLD. *)
Theorem switch_needs_height :
  forall toSource tree,
    (forall base,
       -1 <= countBaseVariableUsedInAllBranches toSource base tree 0
       <= Z.of_nat (height tree))
    /\ (forall statement,
          renderDecisionTreeWithSwitch toSource tree = Some statement ->
          (3 <= height tree)%nat).
Proof.
  intros toSource tree.
  assert (Hcount : forall base,
             -1 <= countBaseVariableUsedInAllBranches toSource base tree 0
             <= Z.of_nat (height tree)).
  { intros base.
    destruct (count_deepest_chain toSource base tree 0)
      as [[Hc _] | [n [Hv [Hc _]]]]; [lia | lia |].
    apply validChain_height in Hv. lia. }
  split; [exact Hcount|].
  intros statement H. apply renderDecisionTreeWithSwitch_Some in H.
  destruct H as [base [_ [Hq _]]].
  unfold qualifies, SWITCH_THRESHOLD in Hq. apply Z.leb_le in Hq.
  specialize (Hcount base). lia.
Qed.

Lemma switch_needs_height_witness :
  (3 <= height (makeDecisionTree switchChain))%nat.
Proof.
  apply (proj2 (switch_needs_height printExpression
                  (makeDecisionTree switchChain))
           (SwitchStatement (Identifier "a")
              (collectSwitchCase printExpression
                 (makeDecisionTree switchChain) (Identifier "a")))).
  vm_compute. reflexivity.
Defined.

(** X7. areNodesEqual is an equivalence relation, and the base enters the
    count, the comparison values and the cases only through its source text:
    two bases with the same source text give the same count, the same values
    and the same cases. *)
Theorem same_source_same_switch :
  forall toSource,
    (forall node, areNodesEqual toSource node node = true)
    /\ (forall a b, areNodesEqual toSource a b = areNodesEqual toSource b a)
    /\ (forall a b c,
          areNodesEqual toSource a b = true ->
          areNodesEqual toSource b c = true ->
          areNodesEqual toSource a c = true)
    /\ (forall base base',
          areNodesEqual toSource base base' = true ->
          (forall tree count,
             countBaseVariableUsedInAllBranches toSource base tree count
             = countBaseVariableUsedInAllBranches toSource base' tree count)
          /\ (forall cond,
                extractComparisonValues toSource cond base
                = extractComparisonValues toSource cond base')
          /\ (forall tree,
                collectSwitchCase toSource tree base
                = collectSwitchCase toSource tree base')).
Proof.
  intros toSource. split; [apply areNodesEqual_refl|].
  split; [apply areNodesEqual_sym|].
  split; [apply areNodesEqual_trans|].
  intros base base' H. apply String.eqb_eq in H.
  destruct (same_source_same_cases toSource base base' H)
    as [_ [Hv [Hc Hs]]].
  auto.
Qed.

Lemma same_source_same_switch_witness :
  areNodesEqual printExpression (Identifier "a") (Identifier "a") = true
  /\ collectSwitchCase printExpression (makeDecisionTree switchChain)
       (Identifier "a")
     = collectSwitchCase printExpression (makeDecisionTree switchChain)
         (OtherExpression "a").
Proof.
  pose proof (same_source_same_switch printExpression)
    as [Hrefl [_ [Htrans Hsame]]].
  split.
  - apply (Htrans (Identifier "a") (OtherExpression "a") (Identifier "a"));
      reflexivity.
  - apply (Hsame (Identifier "a") (OtherExpression "a")). reflexivity.
Defined.

(** ** The renderings *)

(** X8. The early-return rendering of any tree is never empty, has no else
    anywhere, gives every if a block as consequent, and its statements other
    than ifs and blocks are exactly the returns of the leaves of the tree, in
    order: no action is lost or repeated. *)
Theorem early_return_rendering_shape :
  forall tree,
    renderDecisionTreeWithEarlyReturn tree <> []
    /\ forallb elseFree (renderDecisionTreeWithEarlyReturn tree) = true
    /\ forallb blockBodied (renderDecisionTreeWithEarlyReturn tree) = true
    /\ flat_map simpleStatements (renderDecisionTreeWithEarlyReturn tree)
       = map (fun action => ReturnStatement (Some action)) (leaves tree).
Proof.
  intros tree. destruct (early_return_shape tree) as [H1 [H2 H3]].
  split; [assumption|]. split; [assumption|]. split; [assumption|].
  apply early_return_leaves.
Qed.

(** X9. In the if/else rendering of any tree, switch or not, every if has a
    block as consequent and, when it has an alternate, an if or a block as
    alternate. *)
Theorem if_else_rendering_block_bodied :
  forall toSource tree,
    forallb blockBodied (renderDecisionTree toSource tree) = true.
Proof.
  intros toSource tree. apply if_else_blockBodied.
Qed.

(** X10. When no switch is synthesized at any node, the statements of the
    if/else rendering other than ifs and blocks are exactly the expression
    statements of the leaves of the tree, in order. *)
Theorem if_else_rendering_leaves :
  forall toSource tree,
    switchFree toSource tree = true ->
    flat_map simpleStatements (renderDecisionTree toSource tree)
    = map ExpressionStatement (leaves tree).
Proof.
  intros toSource tree. apply if_else_leaves.
Qed.

Lemma if_else_rendering_leaves_witness :
  flat_map simpleStatements
    (renderDecisionTree printExpression (makeDecisionTree shortChain))
  = map ExpressionStatement (leaves (makeDecisionTree shortChain)).
Proof.
  apply (if_else_rendering_leaves printExpression
           (makeDecisionTree shortChain)).
  vm_compute. reflexivity.
Defined.

(** X11. The tree of an expression has a branch exactly when the expression
    is a ternary or a logical expression; it always has a leaf, and no leaf
    is a ternary or a logical expression; and the leaf the tree selects in a
    run is the terminal expression short-circuit evaluation of the expression
    ends on. *)
Theorem makeDecisionTree_leaves :
  forall node,
    hasBranch (makeDecisionTree node) = isTriggerExpression node
    /\ leaves (makeDecisionTree node) <> []
    /\ Forall (fun action => isTriggerExpression action = false)
         (leaves (makeDecisionTree node))
    /\ (forall truth,
          selectLeaf truth (makeDecisionTree node) = evalAction truth node).
Proof.
  intros node. split; [apply hasBranch_makeDecisionTree|].
  split; [apply leaves_nonempty|]. split.
  - apply leavesPlain_leaves. apply makeDecisionTree_leavesPlain.
  - intros truth. apply selectLeaf_makeDecisionTree.
Qed.

(** ** What the renderings run *)

(** X12. Whenever the tree selects a leaf, running the early-return rendering
    returns that leaf and runs nothing else; for the tree of an expression:
    whenever evaluation ends on a terminal expression, the rendering returns
    it. *)
Theorem early_return_returns_selected :
  forall truth matches,
    (forall tree action,
       selectLeaf truth tree = Some action ->
       execStatements truth matches (renderDecisionTreeWithEarlyReturn tree)
       = ([], Returned (Some action)))
    /\ (forall node action,
          evalAction truth node = Some action ->
          execStatements truth matches
            (renderDecisionTreeWithEarlyReturn (makeDecisionTree node))
          = ([], Returned (Some action))).
Proof.
  intros truth matches. split.
  - apply early_return_selected.
  - intros node action H. apply early_return_selected.
    rewrite selectLeaf_makeDecisionTree. assumption.
Qed.

Lemma early_return_returns_selected_witness :
  execStatements (sampleTruth "a" "2") (sampleMatches "2")
    (renderDecisionTreeWithEarlyReturn (makeDecisionTree switchChain))
  = ([], Returned (Some (call "g"))).
Proof.
  apply (proj2 (early_return_returns_selected (sampleTruth "a" "2")
                  (sampleMatches "2")) switchChain (call "g")).
  vm_compute. reflexivity.
Defined.

(** X13. On a tree in which every internal node has both branches (nested
    ternaries, no logical expression as an arm) the early-return rendering
    always returns, and it returns the leaf the tree selects. *)
Theorem early_return_ternaries_always_return :
  forall truth matches tree,
    bothOrLeaf tree = true ->
    exists action,
      In action (leaves tree)
      /\ selectLeaf truth tree = Some action
      /\ execStatements truth matches
           (renderDecisionTreeWithEarlyReturn tree)
         = ([], Returned (Some action)).
Proof.
  intros truth matches tree H.
  destruct (bothOrLeaf_selects truth tree H) as [action [Hs Hin]].
  exists action. split; [assumption|]. split; [assumption|].
  apply early_return_selected. assumption.
Qed.

Lemma early_return_ternaries_always_return_witness :
  exists action,
    In action (leaves (makeDecisionTree elseIfChain))
    /\ selectLeaf (fun _ => false) (makeDecisionTree elseIfChain)
       = Some action
    /\ execStatements (fun _ => false) (fun _ _ => false)
         (renderDecisionTreeWithEarlyReturn (makeDecisionTree elseIfChain))
       = ([], Returned (Some action)).
Proof.
  apply (early_return_ternaries_always_return (fun _ => false)
           (fun _ _ => false) (makeDecisionTree elseIfChain)).
  reflexivity.
Defined.

(** X14. When the condition of a node with both branches holds and the
    rendering of its true branch ends without returning (a one-armed guard
    that fails), the tree selects nothing, and the early-return rendering
    runs on into the statements of the false branch. *)
Theorem early_return_falls_into_false_branch :
  forall truth matches c t f,
    evalTest truth c = true ->
    execStatements truth matches (renderDecisionTreeWithEarlyReturn t)
    = ([], Completed) ->
    selectLeaf truth (Tree c (Some t) (Some f)) = None
    /\ execStatements truth matches
         (renderDecisionTreeWithEarlyReturn (Tree c (Some t) (Some f)))
       = execStatements truth matches (renderDecisionTreeWithEarlyReturn f).
Proof.
  intros truth matches c t f. apply early_return_falls_through.
Qed.

Lemma early_return_falls_into_false_branch_witness :
  evalAction (fun test => negb (String.eqb (printExpression test) "b"))
    guardedArm = None
  /\ execStatements
       (fun test => negb (String.eqb (printExpression test) "b"))
       (fun _ _ => false)
       (renderDecisionTreeWithEarlyReturn (makeDecisionTree guardedArm))
     = ([], Returned (Some (call "d"))).
Proof.
  pose proof (early_return_falls_into_false_branch
                (fun test => negb (String.eqb (printExpression test) "b"))
                (fun _ _ => false)
                (Identifier "a")
                (makeDecisionTree
                   (LogicalExpression AND (Identifier "b") (call "c")))
                (makeDecisionTree
                   (ternary (Identifier "e") (call "d") (call "g")))
                eq_refl eq_refl) as [Hs Hr].
  split.
  - rewrite <- selectLeaf_makeDecisionTree. exact Hs.
  - etransitivity; [exact Hr|]. reflexivity.
Defined.

(** X15. When no switch is synthesized at any node, running the if/else
    rendering runs exactly the leaf the tree selects, as one expression
    statement, or nothing when the tree selects nothing, and then goes on;
    for the tree of an expression that leaf is the terminal expression
    evaluation ends on. *)
Theorem if_else_runs_selected_leaf :
  forall toSource truth matches,
    (forall tree,
       switchFree toSource tree = true ->
       execStatements truth matches (renderDecisionTree toSource tree)
       = (selected truth tree, Completed))
    /\ (forall node,
          switchFree toSource (makeDecisionTree node) = true ->
          execStatements truth matches
            (renderDecisionTree toSource (makeDecisionTree node))
          = (match evalAction truth node with
             | Some action => [action]
             | None => []
             end, Completed)).
Proof.
  intros toSource truth matches. split.
  - apply if_else_runs_selected.
  - intros node H. rewrite (if_else_runs_selected toSource truth matches _ H).
    unfold selected. rewrite selectLeaf_makeDecisionTree. reflexivity.
Qed.

Lemma if_else_runs_selected_leaf_witness :
  execStatements (sampleTruth "a" "2") (sampleMatches "2")
    (renderDecisionTree printExpression (makeDecisionTree shortChain))
  = (match evalAction (sampleTruth "a" "2") shortChain with
     | Some action => [action]
     | None => []
     end, Completed).
Proof.
  apply (proj2 (if_else_runs_selected_leaf printExpression
                  (sampleTruth "a" "2") (sampleMatches "2")) shortChain).
  vm_compute. reflexivity.
Defined.

(** X16. On a case ladder (every condition down the false branches compares
    the base with values, every true branch is a leaf), and in a run in which
    an equality comparison with the base holds exactly when the switch
    matches the value compared with, a synthesized switch runs exactly the
    leaf the tree selects, or nothing when the tree selects nothing. *)
Theorem switch_runs_selected_leaf :
  forall toSource truth matches tree base cases,
    (forall operator lhs rhs,
       isEqualityOperator operator = true ->
       areNodesEqual toSource lhs base = true ->
       truth (BinaryExpression operator lhs rhs) = matches base rhs) ->
    (forall operator lhs rhs,
       isEqualityOperator operator = true ->
       areNodesEqual toSource lhs base = false ->
       areNodesEqual toSource rhs base = true ->
       truth (BinaryExpression operator lhs rhs) = matches base lhs) ->
    renderDecisionTreeWithSwitch toSource tree
    = Some (SwitchStatement base cases) ->
    caseLadder toSource base tree = true ->
    execStatements truth matches (renderDecisionTree toSource tree)
    = (selected truth tree, Completed).
Proof.
  intros toSource truth matches tree base cases Hl Hr Hs Hc.
  rewrite renderDecisionTree_unfold, Hs, execStatements_single.
  apply renderDecisionTreeWithSwitch_Some in Hs.
  destruct Hs as [base' [_ [_ Heq]]]. injection Heq as <- ->.
  apply switch_runs_selected; assumption.
Qed.

Lemma switch_runs_selected_leaf_witness :
  execStatements (sampleTruth "a" "'x'") (sampleMatches "'x'")
    (renderDecisionTree printExpression (makeDecisionTree fallthroughChain))
  = ([call "f"], Completed).
Proof.
  apply (switch_runs_selected_leaf printExpression
           (sampleTruth "a" "'x'") (sampleMatches "'x'")
           (makeDecisionTree fallthroughChain) (Identifier "a")
           (collectSwitchCase printExpression
              (makeDecisionTree fallthroughChain) (Identifier "a"))).
  - intros operator lhs rhs _ H. unfold areNodesEqual in H. cbn in H.
    unfold sampleTruth, sampleMatches. rewrite H. reflexivity.
  - intros operator lhs rhs _ H1 H2. unfold areNodesEqual in H1, H2.
    cbn in H1, H2. unfold sampleTruth, sampleMatches. rewrite H1, H2.
    reflexivity.
  - vm_compute. reflexivity.
  - vm_compute. reflexivity.
Defined.

(** X17. A node without a true branch (the left side of an OR) gets cases
    without a consequent and without a break: in a switch, when its condition
    holds, the tree selects nothing, and the switch runs the consequent of
    the next node's case. *)
Theorem switch_missing_true_branch_falls_through :
  forall toSource truth matches base c c' t' f',
    (forall operator lhs rhs,
       isEqualityOperator operator = true ->
       areNodesEqual toSource lhs base = true ->
       truth (BinaryExpression operator lhs rhs) = matches base rhs) ->
    (forall operator lhs rhs,
       isEqualityOperator operator = true ->
       areNodesEqual toSource lhs base = false ->
       areNodesEqual toSource rhs base = true ->
       truth (BinaryExpression operator lhs rhs) = matches base lhs) ->
    comparesOnly toSource base c = true ->
    evalTest truth c = true ->
    comparesOnly toSource base c' = true ->
    selected truth (Tree c None (Some (Tree c' (Some t') f'))) = []
    /\ execStatement truth matches
         (SwitchStatement base
            (collectSwitchCase toSource
               (Tree c None (Some (Tree c' (Some t') f'))) base))
       = ([condition t'], Completed).
Proof.
  intros toSource truth matches base c c' t' f' Hl Hr Hc E Hc'. split.
  - unfold selected. simpl. rewrite E. reflexivity.
  - apply (switch_runs_next_consequent toSource truth matches base Hl Hr);
      assumption.
Qed.

Lemma switch_missing_true_branch_falls_through_witness :
  evalAction (sampleTruth "a" "1") orLadder = None
  /\ execStatements (sampleTruth "a" "1") (sampleMatches "1")
       (renderDecisionTree printExpression (makeDecisionTree orLadder))
     = ([call "f"], Completed).
Proof.
  pose proof (switch_missing_true_branch_falls_through printExpression
                (sampleTruth "a" "1") (sampleMatches "1") (Identifier "a")
                (looseEq (Identifier "a") (Literal "1"))
                (looseEq (Identifier "a") (Literal "2"))
                (makeDecisionTree (call "f"))
                (Some (makeDecisionTree
                         (ternary (looseEq (Identifier "a") (Literal "3"))
                            (call "g")
                            (ternary (looseEq (Identifier "a") (Literal "4"))
                               (call "h") (call "k")))))) as H.
  destruct H as [Hs Hr].
  - intros operator lhs rhs _ H. unfold areNodesEqual in H. cbn in H.
    unfold sampleTruth, sampleMatches. rewrite H. reflexivity.
  - intros operator lhs rhs _ H1 H2. unfold areNodesEqual in H1, H2.
    cbn in H1, H2. unfold sampleTruth, sampleMatches. rewrite H1, H2.
    reflexivity.
  - reflexivity.
  - reflexivity.
  - reflexivity.
  - split; [reflexivity|].
    etransitivity; [|exact Hr]. reflexivity.
Defined.

(** ** The transformation on programs *)



(** ** Positions *)

(** X22. isPositionBetween answers true as soon as one of the three
    positions is missing; with three positions that do not end before they
    start, a node between two others means that the first of them ends
    before the second starts, and then neither of them is between, and no
    node is between itself and another. *)
Theorem isPositionBetween_rules :
  (forall before after, isPositionBetween None before after = true)
  /\ (forall node after, isPositionBetween node None after = true)
  /\ (forall node before, isPositionBetween node before None = true)
  /\ (forall node before after,
        wellFormed node -> wellFormed before -> wellFormed after ->
        isPositionBetween (Some node) (Some before) (Some after) = true ->
        endOf before < startOf after
        /\ isPositionBetween (Some before) (Some node) (Some after) = false
        /\ isPositionBetween (Some after) (Some before) (Some node) = false)
  /\ (forall node after,
        wellFormed node ->
        isPositionBetween (Some node) (Some node) (Some after) = false).
Proof.
  unfold wellFormed.
  split; [reflexivity|].
  split; [intros [n|] after; reflexivity|].
  split; [intros [n|] [b|]; reflexivity|].
  split.
  - intros node before after Hn Hb Ha H. simpl in H.
    apply andb_true_iff in H. destruct H as [H1 H2].
    apply Z.ltb_lt in H1. apply Z.ltb_lt in H2.
    split; [lia|]. simpl. split.
    + apply andb_false_iff. left. apply Z.ltb_ge. lia.
    + apply andb_false_iff. right. apply Z.ltb_ge. lia.
  - intros node after Hn. simpl.
    apply andb_false_iff. left. apply Z.ltb_ge. lia.
Qed.

Lemma isPositionBetween_rules_witness :
  (endOf (mkPosition 0 10) < startOf (mkPosition 30 40)
   /\ isPositionBetween (Some (mkPosition 0 10)) (Some (mkPosition 15 20))
        (Some (mkPosition 30 40)) = false
   /\ isPositionBetween (Some (mkPosition 30 40)) (Some (mkPosition 0 10))
        (Some (mkPosition 15 20)) = false)
  /\ isPositionBetween (Some (mkPosition 15 20)) (Some (mkPosition 15 20))
       (Some (mkPosition 30 40)) = false.
Proof.
  pose proof isPositionBetween_rules as [_ [_ [_ [Hbetween Hself]]]].
  split.
  - apply (Hbetween (mkPosition 15 20) (mkPosition 0 10) (mkPosition 30 40));
      unfold wellFormed; simpl; try lia; reflexivity.
  - apply Hself. unfold wellFormed. simpl. lia.
Defined.

(** ** Running the transformation twice *)




